(** * Subscription system: lifecycle, billing, gateway and scheduler

    A shallow embedding of the Python sources
    - [interfaces/__init__.py]             (Money, TimePeriod),
    - [payment/gateways/__init__.py]       (YooMoneyGateway,
                                            MockPaymentGateway),
    - [subscription/lifecycle/__init__.py] (SubscriptionLifecycleManager),
    - [subscription/billing/__init__.py]   (BillingEngine),
    - [scheduler/task_scheduler.py]        (TaskScheduler),
    - [api/routes/subscription.py]         (the creation, renewal and
                                            invoice routes),
    with the properties of the specification stated over it.

    Conventions.
    - A naive [datetime] is the number of microseconds since the epoch
      ([Z]); a [timedelta] is a number of microseconds.  Date arithmetic
      is exact and does not raise: the range of [datetime] (years 1 to
      9999, [datetime_min] and [datetime_max]) is a hypothesis of the
      statements that reach for it.
    - A [Decimal] of the module [Dec] is a coefficient and an exponent;
      its operations round to the 28 significant digits of Python's
      default context, ties to even.  It is the arithmetic of prices and
      day counts: finite values inside the exponent limits.  The module
      [PyDecimal] is the whole of [decimal.Decimal] that [Money] can
      meet: NaN, the infinities, the sign of zero, Emax and Etiny, and
      the signals that the default context traps.
    - A [UUID] is a number.  Statuses are the strings the sources write.
    - Python exceptions are the constructors of [exn]; a method that can
      raise runs in the monad [M] over the state [World], and what it
      did to the world before raising stays done.
    - The sources call methods and import modules that they do not
      contain ([payment.processors], [subscription.plans],
      [core.exceptions], and private helpers of the two managers).
      Each such definition says so in its comment and follows the
      specification. *)

From Stdlib Require Import ZArith Lia Bool List.
From stdpp Require Import base option list strings gmap pretty.

Local Open Scope Z_scope.

(** ** Python's [decimal.Decimal] in the default context *)

Module Dec.

Record Decimal : Type := mk { coeff : Z; exp : Z }.

(** [getcontext().prec] *)
Definition prec : Z := 28.

Fixpoint ndigits_aux (fuel : nat) (n : Z) : Z :=
  match fuel with
  | O => 0
  | S f => if n <=? 0 then 0 else 1 + ndigits_aux f (n / 10)
  end.

(** [len(self._int)] for a non-zero coefficient. *)
Definition ndigits (n : Z) : Z :=
  ndigits_aux (S (Z.to_nat (Z.log2 (Z.abs n)))) (Z.abs n).

(** [Decimal._fix] with ROUND_HALF_EVEN: a coefficient of more than
    [prec] digits loses its low digits; a carry out of the top digit
    drops one more.  The exponent limits (Emax = 999999) are not
    modelled. *)
Definition _fix (d : Decimal) : Decimal :=
  let c := coeff d in
  let k := ndigits c - prec in
  if (c =? 0) || (k <=? 0) then d
  else
    let q := Z.abs c / 10 ^ k in
    let r := Z.abs c mod 10 ^ k in
    let up := (10 ^ k <? 2 * r) || ((10 ^ k =? 2 * r) && Z.odd q) in
    let q' := if up then q + 1 else q in
    if q' =? 10 ^ prec
    then mk (Z.sgn c * (q' / 10)) (exp d + k + 1)
    else mk (Z.sgn c * q') (exp d + k).

(** [Decimal(n)] for a Python [int]. *)
Definition of_int (n : Z) : Decimal := mk n 0.

Definition zero : Decimal := of_int 0.

(** Both coefficients at the smaller exponent, as [_normalize] and
    [_cmp] align them. *)
Definition align (a b : Decimal) : Z * Z :=
  let e := Z.min (exp a) (exp b) in
  (coeff a * 10 ^ (exp a - e), coeff b * 10 ^ (exp b - e)).

(** [a < b], [a <= b], [a == b] on numeric value. *)
Definition ltb (a b : Decimal) : bool := fst (align a b) <? snd (align a b).
Definition leb (a b : Decimal) : bool := fst (align a b) <=? snd (align a b).
Definition eqb (a b : Decimal) : bool := fst (align a b) =? snd (align a b).

(** [a + b] and [a - b]: the exact result, then [_fix].  The value is
    Python's; so is the exponent, except where [_normalize] shortens an
    operand that is too small to matter. *)
Definition add (a b : Decimal) : Decimal :=
  _fix (mk (fst (align a b) + snd (align a b)) (Z.min (exp a) (exp b))).
Definition sub (a b : Decimal) : Decimal :=
  _fix (mk (fst (align a b) - snd (align a b)) (Z.min (exp a) (exp b))).

(** [a * b] *)
Definition mul (a b : Decimal) : Decimal :=
  _fix (mk (coeff a * coeff b) (exp a + exp b)).

(** The loop of [__truediv__] on an exact quotient: drop trailing
    zeros while the exponent is below the ideal one. *)
Fixpoint strip (fuel : nat) (q e ideal : Z) : Z * Z :=
  match fuel with
  | O => (q, e)
  | S f => if (e <? ideal) && (q mod 10 =? 0)
           then strip f (q / 10) (e + 1) ideal
           else (q, e)
  end.

(** [a / b] ([__truediv__]); [None] stands for the DivisionByZero or
    InvalidOperation the default context raises on a zero divisor. *)
Definition div (a b : Decimal) : option Decimal :=
  if coeff b =? 0 then None
  else if coeff a =? 0 then Some (_fix (mk 0 (exp a - exp b)))
  else
    let shift := ndigits (coeff b) - ndigits (coeff a) + prec + 1 in
    let e := exp a - exp b - shift in
    let n := if 0 <=? shift then Z.abs (coeff a) * 10 ^ shift
             else Z.abs (coeff a) in
    let m := if 0 <=? shift then Z.abs (coeff b)
             else Z.abs (coeff b) * 10 ^ (- shift) in
    let q := n / m in
    let r := n mod m in
    let '(q', e') :=
      if r =? 0 then strip (Z.to_nat (exp a - exp b - e)) q e (exp a - exp b)
      else (if q mod 5 =? 0 then q + 1 else q, e) in
    Some (_fix (mk (Z.sgn (coeff a) * Z.sgn (coeff b) * q') e')).

(** Python's [max(x, y)]: [x] unless [y > x]. *)
Definition max (x y : Decimal) : Decimal := if ltb x y then y else x.

(** A decimal written with two places, [n / 100]. *)
Definition cents (n : Z) : Decimal := mk n (-2).

End Dec.

Abbreviation Decimal := Dec.Decimal.

(** ** Exceptions and results *)

(** The exception classes the sources raise or catch, with [NotFound]
    of the specification (§7) for the lookups.  [DecimalError] is an
    exception of [decimal]: a signal that the default context traps. *)
Inductive exn : Type :=
| ValueError (msg : string)
| SubscriptionError (msg : string)
| InsufficientFundsError (msg : string)
| PaymentProcessingError (msg : string)
| DecimalError
| NotFound (msg : string)
| OtherError (msg : string).

Inductive result (A : Type) : Type :=
| Ok (a : A)
| Raise (e : exn).
Arguments Ok {A} a.
Arguments Raise {A} e.

Definition is_ok {A} (r : result A) : bool :=
  match r with Ok _ => true | Raise _ => false end.

(** ** [interfaces.Money] *)

Module Money.

(** [@dataclass(frozen=True) class Money]: [amount: Decimal],
    [currency: str = "RUB"].  The amounts of this module are finite and
    inside the limits of the context, as the amounts that the gateways
    are handed; the constructor and the arithmetic of the class are in
    [PyMoney] below, over every [Decimal]. *)
Record t : Type := mk { amount : Decimal; currency : string }.

Definition __lt__ (self other : t) : result bool :=
  if negb (String.eqb (currency self) (currency other))
  then Raise (ValueError "Cannot compare money in different currencies")
  else Ok (Dec.ltb (amount self) (amount other)).

Definition __gt__ (self other : t) : result bool :=
  if negb (String.eqb (currency self) (currency other))
  then Raise (ValueError "Cannot compare money in different currencies")
  else Ok (Dec.ltb (amount other) (amount self)).

End Money.

(** ** [decimal.Decimal] with its special values and the limits of the
       default context *)

Module PyDecimal.

(** A [Decimal]: a sign, a coefficient and an exponent ([_sign], [_int],
    [_exp]; the coefficient is not negative), an infinity, or a NaN,
    quiet or signalling (its payload is not kept). *)
Inductive t : Type :=
| Finite (negative : bool) (coefficient : Z) (exponent : Z)
| Infinity (negative : bool)
| NaN (signaling : bool).

(** The default context: [prec=28], [rounding=ROUND_HALF_EVEN],
    [Emin=-999999], [Emax=999999], [clamp=0], with traps for
    InvalidOperation, DivisionByZero and Overflow. *)
Definition prec : Z := 28.
Definition Emax : Z := 999999.
Definition Emin : Z := -999999.
Definition Etiny : Z := Emin - prec + 1.
Definition Etop : Z := Emax - prec + 1.

(** The signals that the operations below can raise and that the
    context traps: the operation raises the exception of that name.
    Underflow, Subnormal, Inexact, Rounded and Clamped are not trapped
    and leave no trace. *)
Inductive signal : Type := InvalidOperation | Overflow.

Inductive answer (A : Type) : Type :=
| Done (a : A)
| Trap (s : signal).
Arguments Done {A} a.
Arguments Trap {A} s.

(** [Decimal(0)] *)
Definition zero : t := Finite false 0 0.

Definition is_nan (d : t) : bool :=
  match d with NaN _ => true | _ => false end.

(** [_isinfinity]: 1 for Infinity, -1 for -Infinity, 0 otherwise. *)
Definition _isinfinity (d : t) : Z :=
  match d with
  | Infinity false => 1
  | Infinity true => -1
  | _ => 0
  end.

Definition signed (negative : bool) (c : Z) : Z :=
  if negative then - c else c.

(** [_cmp] on two values that are not NaN: the infinities first, then
    the zeros (of either sign, all equal), then the signs, then the
    magnitudes at a common exponent. *)
Definition _cmp (a b : t) : comparison :=
  match a, b with
  | Finite s1 c1 e1, Finite s2 c2 e2 =>
      if c1 =? 0 then
        if c2 =? 0 then Eq else if s2 then Gt else Lt
      else if c2 =? 0 then
        if s1 then Lt else Gt
      else if s1 && negb s2 then Lt
      else if negb s1 && s2 then Gt
      else
        let e := Z.min e1 e2 in
        signed s1 (c1 * 10 ^ (e1 - e)) ?= signed s2 (c2 * 10 ^ (e2 - e))
  | _, _ => _isinfinity a ?= _isinfinity b
  end.

(** [a < b], [a > b], [a >= b]: a NaN on either side signals
    InvalidOperation ([_compare_check_nans]). *)
Definition __lt__ (a b : t) : answer bool :=
  if is_nan a || is_nan b then Trap InvalidOperation
  else Done (match _cmp a b with Lt => true | _ => false end).

Definition __gt__ (a b : t) : answer bool :=
  if is_nan a || is_nan b then Trap InvalidOperation
  else Done (match _cmp a b with Gt => true | _ => false end).

Definition __ge__ (a b : t) : answer bool :=
  if is_nan a || is_nan b then Trap InvalidOperation
  else Done (match _cmp a b with Lt => false | _ => true end).

(** [_fix] on a finite value.  A zero keeps its sign and has its
    exponent brought into [Etiny, Emax].  A coefficient whose leading
    digit stands above Emax overflows.  Digits below the precision, or
    below Etiny for a subnormal, are rounded off, ties to even; when
    nothing of the coefficient is left above Etiny the result is a zero
    of the same sign.  A carry out of the top digit drops one more
    digit and can overflow in its turn. *)
Definition _fix (negative : bool) (c e : Z) : answer t :=
  if c =? 0 then Done (Finite negative 0 (Z.min (Z.max e Etiny) Emax))
  else
    let len := Dec.ndigits c in
    let exp_min0 := len + e - prec in
    if Etop <? exp_min0 then Trap Overflow
    else
      let exp_min := if exp_min0 <? Etiny then Etiny else exp_min0 in
      if e <? exp_min then
        let digits := len + e - exp_min in
        if digits <? 0 then Done (Finite negative 0 exp_min)
        else
          let k := len - digits in
          let q := c / 10 ^ k in
          let r := c mod 10 ^ k in
          let up := (10 ^ k <? 2 * r) || ((10 ^ k =? 2 * r) && Z.odd q) in
          let q' := if up then q + 1 else q in
          if q' =? 10 ^ prec then
            if Etop <? exp_min + 1 then Trap Overflow
            else Done (Finite negative (q' / 10) (exp_min + 1))
          else Done (Finite negative q' exp_min)
      else Done (Finite negative c e).

(** [copy_negate] *)
Definition copy_negate (d : t) : t :=
  match d with
  | Finite s c e => Finite (negb s) c e
  | Infinity s => Infinity (negb s)
  | NaN s => NaN s
  end.

(** [a + b] ([__add__]).  A signalling NaN raises, a quiet one is the
    result; Infinity plus -Infinity raises.  Two zeros give a zero that
    is negative only if both are; operands that cancel give a positive
    zero; otherwise the exact sum at the smaller exponent, then [_fix]
    (whose result is the one [_normalize] prepares when it shortens an
    operand too small to matter). *)
Definition __add__ (a b : t) : answer t :=
  match a, b with
  | NaN true, _ => Trap InvalidOperation
  | _, NaN true => Trap InvalidOperation
  | NaN false, _ => Done (NaN false)
  | _, NaN false => Done (NaN false)
  | Infinity s1, Infinity s2 =>
      if Bool.eqb s1 s2 then Done a else Trap InvalidOperation
  | Infinity _, Finite _ _ _ => Done a
  | Finite _ _ _, Infinity _ => Done b
  | Finite s1 c1 e1, Finite s2 c2 e2 =>
      let e := Z.min e1 e2 in
      if (c1 =? 0) && (c2 =? 0) then _fix (s1 && s2) 0 e
      else
        let v := signed s1 (c1 * 10 ^ (e1 - e))
                 + signed s2 (c2 * 10 ^ (e2 - e)) in
        if v =? 0 then _fix false 0 e
        else _fix (v <? 0) (Z.abs v) e
  end.

(** [a - b] ([__sub__]): the NaN check, then [a + (-b)]. *)
Definition __sub__ (a b : t) : answer t :=
  match a, b with
  | NaN true, _ => Trap InvalidOperation
  | _, NaN true => Trap InvalidOperation
  | NaN false, _ => Done (NaN false)
  | _, NaN false => Done (NaN false)
  | _, _ => __add__ a (copy_negate b)
  end.

(** [a * b] ([__mul__]): Infinity times zero raises. *)
Definition __mul__ (a b : t) : answer t :=
  match a, b with
  | NaN true, _ => Trap InvalidOperation
  | _, NaN true => Trap InvalidOperation
  | NaN false, _ => Done (NaN false)
  | _, NaN false => Done (NaN false)
  | Infinity s1, Infinity s2 => Done (Infinity (xorb s1 s2))
  | Infinity s1, Finite s2 c2 _ =>
      if c2 =? 0 then Trap InvalidOperation
      else Done (Infinity (xorb s1 s2))
  | Finite s1 c1 _, Infinity s2 =>
      if c1 =? 0 then Trap InvalidOperation
      else Done (Infinity (xorb s1 s2))
  | Finite s1 c1 e1, Finite s2 c2 e2 =>
      _fix (xorb s1 s2) (c1 * c2) (e1 + e2)
  end.

(** A well-formed value: the coefficient is not negative. *)
Definition wf (d : t) : Prop :=
  match d with Finite _ c _ => 0 <= c | _ => True end.

(** A finite value inside the limits of the context: the exponent is
    not below Etiny and the value is below [10 ^ Emax]. *)
Definition in_range (d : t) : Prop :=
  match d with
  | Finite _ c e => 0 <= c /\ Etiny <= e /\ Dec.ndigits c + e <= Emax
  | _ => False
  end.

(** [not (d < 0)]: what [Money.__post_init__] lets through. *)
Definition nonneg (d : t) : Prop := __lt__ d zero = Done false.

End PyDecimal.

(** ** [interfaces.Money] over every [Decimal] *)

(** The class [Money] with amounts that range over all of
    [decimal.Decimal]: its constructor, its arithmetic and its
    comparisons.  An exception of [decimal] is [DecimalError]. *)
Module PyMoney.

Record t : Type := mk { amount : PyDecimal.t; currency : string }.

(** The constructor call [Money(amount, currency)]: [__post_init__]
    tests [self.amount < 0], which raises on a NaN. *)
Definition new (amount : PyDecimal.t) (currency : string) : result t :=
  match PyDecimal.__lt__ amount PyDecimal.zero with
  | PyDecimal.Trap _ => Raise DecimalError
  | PyDecimal.Done true => Raise (ValueError "Amount cannot be negative")
  | PyDecimal.Done false => Ok (mk amount currency)
  end.

Definition __add__ (self other : t) : result t :=
  if negb (String.eqb (currency self) (currency other))
  then Raise (ValueError "Cannot add money in different currencies")
  else match PyDecimal.__add__ (amount self) (amount other) with
       | PyDecimal.Trap _ => Raise DecimalError
       | PyDecimal.Done d => new d (currency self)
       end.

Definition __sub__ (self other : t) : result t :=
  if negb (String.eqb (currency self) (currency other))
  then Raise (ValueError "Cannot subtract money in different currencies")
  else match PyDecimal.__sub__ (amount self) (amount other) with
       | PyDecimal.Trap _ => Raise DecimalError
       | PyDecimal.Done d => new d (currency self)
       end.

Definition __mul__ (self : t) (multiplier : PyDecimal.t) : result t :=
  match PyDecimal.__mul__ (amount self) multiplier with
  | PyDecimal.Trap _ => Raise DecimalError
  | PyDecimal.Done d => new d (currency self)
  end.

Definition __lt__ (self other : t) : result bool :=
  if negb (String.eqb (currency self) (currency other))
  then Raise (ValueError "Cannot compare money in different currencies")
  else match PyDecimal.__lt__ (amount self) (amount other) with
       | PyDecimal.Trap _ => Raise DecimalError
       | PyDecimal.Done b => Ok b
       end.

Definition __gt__ (self other : t) : result bool :=
  if negb (String.eqb (currency self) (currency other))
  then Raise (ValueError "Cannot compare money in different currencies")
  else match PyDecimal.__gt__ (amount self) (amount other) with
       | PyDecimal.Trap _ => Raise DecimalError
       | PyDecimal.Done b => Ok b
       end.

End PyMoney.

(** ** [interfaces.TimePeriod] *)

Module TimePeriod.

(** [@dataclass class TimePeriod]: [value: int], [unit: str]. *)
Record t : Type := mk { value : Z; unit : string }.

Definition to_days (self : t) : result Z :=
  if String.eqb (unit self) "days" then Ok (value self)
  else if String.eqb (unit self) "months" then Ok (value self * 30)
  else if String.eqb (unit self) "years" then Ok (value self * 365)
  else Raise (ValueError ("Unknown unit: " +:+ unit self)).

End TimePeriod.

(** ** Time *)

(** A naive [datetime]: microseconds since the epoch.  A [timedelta]:
    microseconds. *)
Definition datetime : Type := Z.
Definition timedelta : Type := Z.

Definition seconds (n : Z) : timedelta := n * 1000000.
Definition minutes (n : Z) : timedelta := n * 60000000.
Definition hours (n : Z) : timedelta := n * 3600000000.
Definition days (n : Z) : timedelta := n * 86400000000.

(** [td.days]: whole days, rounded down (a negative [timedelta] has
    negative [days] and non-negative [seconds]). *)
Definition td_days (td : timedelta) : Z := td / 86400000000.

(** [datetime.min] and [datetime.max]: the first microsecond of year 1
    and the last of year 9999.  An addition whose result leaves this
    range raises OverflowError in Python. *)
Definition datetime_min : datetime := -62135596800000000.
Definition datetime_max : datetime := 253402300799999999.

(** ** [scheduler.task_scheduler.TaskScheduler] *)

Module Scheduler.

(** [schedule_params]: [{'hour': h, 'minute': m}] for a daily task,
    [{'interval': td}] for a recurring one. *)
Inductive schedule_params : Type :=
| DailyAt (hour minute : Z)
| Interval (interval : timedelta).

(** [@dataclass class ScheduledTask]; the callable [task] is kept
    outside the model. *)
Record ScheduledTask : Type := mkTask {
  id : string;
  schedule_type : string;
  params : schedule_params;
  last_run : option datetime;
  next_run : option datetime;
  is_active : bool
}.

(** A job handed to the [schedule] library by
    [every(n).<unit>.do(_wrap_task, task_id, task)]; [job_every] is
    [n] in millionths. *)
Record Job : Type := mkJob {
  job_every : Z;
  job_unit : string;
  job_task : string
}.

Record TaskScheduler : Type := mkSched {
  jobs : list Job;
  tasks : gmap string ScheduledTask
}.

Definition __init__ : TaskScheduler := mkSched [] ∅.

(** [_calculate_next_run]: today at [hour:minute], tomorrow when that
    is already past.  [datetime(...)] raises on an hour or a minute
    out of range. *)
Definition _calculate_next_run (now : datetime) (hour minute : Z)
  : result datetime :=
  if (0 <=? hour) && (hour <? 24) && (0 <=? minute) && (minute <? 60) then
    let next_run := days (td_days now) + hours hour + minutes minute in
    Ok (if next_run <? now then next_run + days 1 else next_run)
  else Raise (ValueError "hour or minute out of range").

(** [schedule_recurring_task]; [task_id] is the [str(uuid4())] drawn
    by the call, [now] the clock when the task is stored.  The source
    compares and floor-divides the float [interval.total_seconds()];
    the integer arithmetic here is the same up to [2 ^ 53] microseconds
    (some 285 years), where the float still tells two microseconds
    apart. *)
Definition schedule_recurring_task (task_id : string) (now : datetime)
    (interval : timedelta) (s : TaskScheduler) : TaskScheduler :=
  let '(job, schedule_type) :=
    if interval <? seconds 60 then
      (mkJob interval "seconds" task_id, "seconds")
    else if interval <? seconds 3600 then
      (mkJob (interval / seconds 60 * 1000000) "minutes" task_id, "minutes")
    else if interval <? seconds 86400 then
      (mkJob (interval / seconds 3600 * 1000000) "hours" task_id, "hours")
    else
      (mkJob (interval / seconds 86400 * 1000000) "days" task_id, "days") in
  let scheduled_task :=
    mkTask task_id schedule_type (Interval interval) None
           (Some (now + interval)) true in
  mkSched (jobs s ++ [job]) (<[task_id := scheduled_task]> (tasks s)).

(** [interval_map.get(schedule_type, timedelta(days=1))] *)
Definition interval_map (schedule_type : string) : timedelta :=
  if String.eqb schedule_type "seconds" then seconds 1
  else if String.eqb schedule_type "minutes" then minutes 1
  else if String.eqb schedule_type "hours" then hours 1
  else days 1.

(** [_calculate_next_task_run]; [now] is the clock read by the daily
    branch.  A daily task whose parameters lack the hour raises (a
    [KeyError]). *)
Definition _calculate_next_task_run (now : datetime) (task : ScheduledTask)
  : result (option datetime) :=
  if String.eqb (schedule_type task) "daily" then
    match params task with
    | DailyAt h m =>
        match _calculate_next_run now h m with
        | Ok d => Ok (Some d)
        | Raise e => Raise e
        end
    | Interval _ => Raise (OtherError "KeyError: 'hour'")
    end
  else if existsb (String.eqb (schedule_type task))
                  ["seconds"; "minutes"; "hours"; "days"] then
    match last_run task with
    | Some lr => Ok (Some (lr + interval_map (schedule_type task)))
    | None => Ok None
    end
  else Ok None.

(** [_should_run_task] *)
Definition _should_run_task (task_id : string) (s : TaskScheduler) : bool :=
  match tasks s !! task_id with
  | None => false
  | Some t => is_active t
  end.

(** [_wrap_task].  [completed] tells whether [future.result(timeout=300)]
    returned (the task neither raised nor timed out); [t_done] is the
    clock stored in [last_run], [t_calc] the clock read afterwards by
    the daily computation.  An exception anywhere in the [try] block is
    logged and swallowed; [last_run] is assigned before [next_run] is
    computed and stays assigned. *)
Definition _wrap_task (task_id : string) (completed : bool)
    (t_done t_calc : datetime) (s : TaskScheduler) : TaskScheduler :=
  if negb (_should_run_task task_id s) then s
  else if negb completed then s
  else
    match tasks s !! task_id with
    | None => s
    | Some t =>
        let t1 := mkTask (id t) (schedule_type t) (params t)
                         (Some t_done) (next_run t) (is_active t) in
        match _calculate_next_task_run t_calc t1 with
        | Ok nr =>
            let t2 := mkTask (id t1) (schedule_type t1) (params t1)
                             (last_run t1) nr (is_active t1) in
            mkSched (jobs s) (<[task_id := t2]> (tasks s))
        | Raise _ => mkSched (jobs s) (<[task_id := t1]> (tasks s))
        end
    end.

(** [cancel_task]: the task is marked inactive; the job handed to the
    library stays where it is. *)
Definition cancel_task (task_id : string) (s : TaskScheduler)
  : bool * TaskScheduler :=
  match tasks s !! task_id with
  | None => (false, s)
  | Some t =>
      (true,
       mkSched (jobs s)
               (<[task_id := mkTask (id t) (schedule_type t) (params t)
                                    (last_run t) (next_run t) false]>
                  (tasks s)))
  end.

(** The time between two runs of a job: [job_every] units. *)
Definition job_period (j : Job) : timedelta :=
  job_every j * interval_map (job_unit j) / 1000000.

End Scheduler.

(** ** [payment.gateways.YooMoneyGateway] *)

Module Gateway.

Record YooMoneyGateway : Type := mkGateway {
  api_key : string;
  secret_key : string;
  is_test : bool;
  shop_id : string
}.

(** [YooMoneyGateway(shop_id, secret_key, is_test)] *)
Definition __init__ (shop_id secret_key : string) (is_test : bool)
  : YooMoneyGateway :=
  mkGateway shop_id secret_key is_test shop_id.

Definition _get_base_url (self : YooMoneyGateway) : string :=
  if is_test self then "https://api.yookassa.ru/v3"
  else "https://api.yookassa.ru/v3".

(** The six digits of the microseconds, most significant first. *)
Fixpoint frac_digits (n : nat) (micro : Z) : list Z :=
  match n with
  | O => []
  | S k => frac_digits k (micro / 10) ++ [micro mod 10]
  end.

Fixpoint drop_zeros (l : list Z) : list Z :=
  match l with
  | 0 :: l' => drop_zeros l'
  | _ => l
  end.

(** [str(dt.timestamp())]: the seconds, a point, and the microseconds
    without their trailing zeros ([1730642400.5], [1730642400.0]), as
    [repr] prints a [float] of this magnitude: from 100 microseconds
    after the epoch (below, [repr] writes an exponent) to [2 ^ 33]
    seconds, in year 2242 (above, the float no longer holds the
    microseconds). *)
Definition str_timestamp (now : datetime) : string :=
  let a := Z.abs now in
  let frac := rev (drop_zeros (rev (frac_digits 6 (a mod 1000000)))) in
  (if now <? 0 then "-" else "") +:+ pretty (a / 1000000) +:+ "." +:+
  match frac with
  | [] => "0"
  | _ => foldr (fun d s => pretty d +:+ s) "" frac
  end.

(** [_get_headers]; [now] is the clock read by [datetime.now()]. *)
Definition _get_headers (self : YooMoneyGateway) (now : datetime)
  : list (string * string) :=
  [ ("Authorization", "Basic " +:+ api_key self);
    ("Idempotence-Key", str_timestamp now);
    ("Content-Type", "application/json") ].

(** The [payment_data] dictionary sent as the JSON body:
    [amount.value] is [str(amount.amount)]. *)
Record payment_data : Type := mkData {
  amount_value : Decimal;
  amount_currency : string;
  payment_method_id : string;
  capture : bool;
  description : string;
  metadata_user_id : string
}.

(** What [requests.request] is called with. *)
Record Request : Type := mkRequest {
  method : string;
  url : string;
  body : payment_data;
  headers : list (string * string);
  timeout : Z
}.

(** The request [_make_request] sends. *)
Definition _make_request (self : YooMoneyGateway) (now : datetime)
    (method endpoint : string) (data : payment_data) : Request :=
  mkRequest method (_get_base_url self +:+ "/" +:+ endpoint) data
            (_get_headers self now) 30.

(** The request that [charge(amount, payment_method_id, customer_id)]
    sends when the clock reads [now]; what the provider answers decides
    the pair [charge] returns and is outside the model. *)
Definition charge_request (self : YooMoneyGateway) (now : datetime)
    (amount : Money.t) (payment_method_id customer_id : string) : Request :=
  let payment_data :=
    mkData (Money.amount amount) (Money.currency amount) payment_method_id
           true ("Payment for user " +:+ customer_id) customer_id in
  _make_request self now "POST" "payments" payment_data.

Fixpoint header (name : string) (hs : list (string * string))
  : option string :=
  match hs with
  | [] => None
  | (k, v) :: hs' => if String.eqb k name then Some v else header name hs'
  end.

(** The idempotency key a request carries. *)
Definition idempotence_key (r : Request) : option string :=
  header "Idempotence-Key" (headers r).

(** What comes back from [requests.request(...)], [raise_for_status()]
    and [response.json()]: the text of the [RequestException] raised, or
    the JSON object of the answer with the fields the gateway reads. *)
Definition transport : Type := Request -> string + gmap string string.

(** [charge]: [_make_request] turns a [RequestException] into a
    [PaymentError]; whatever is raised inside the [try], also the
    [KeyError] of [response["id"]], ends as [(False, str(e))]. *)
Definition charge (send : transport) (self : YooMoneyGateway) (now : datetime)
    (amount : Money.t) (payment_method_id customer_id : string)
  : bool * string :=
  match send (charge_request self now amount payment_method_id customer_id) with
  | inl e => (false, "Payment gateway request failed: " +:+ e)
  | inr response =>
      if decide (response !! "status" = Some "succeeded") then
        match response !! "id" with
        | Some i => (true, i)
        | None => (false, "'id'")
        end
      else (false, default "Payment failed" (response !! "description"))
  end.

End Gateway.

(** ** [payment.gateways.MockPaymentGateway] *)

Module Mock.

(** An entry of [self.transactions]; [timestamp] stands for the
    [isoformat()] string of that time. *)
Record MockTx : Type := mkTx {
  amount : Decimal;
  currency : string;
  customer_id : string;
  status : string;
  timestamp : datetime
}.

(** The mock gateway.  [success_rate] is the float handed to
    [__init__], kept as the fraction [rate_num / rate_den] it equals
    ([0 < rate_den]). *)
Record t : Type := mk {
  rate_num : Z;
  rate_den : Z;
  transactions : gmap string MockTx;
  _counter : Z
}.

(** [MockPaymentGateway(success_rate)] *)
Definition __init__ (rate_num rate_den : Z) : t := mk rate_num rate_den ∅ 0.

Definition error_reasons : list string :=
  [ "Insufficient funds"; "Card expired"; "Payment gateway timeout";
    "Invalid payment method" ].

(** [f"mock_tx_{n}"] *)
Definition tx_key (n : Z) : string := "mock_tx_" +:+ pretty n.

(** [charge].  [random.random()] returns [r / 2 ** 53] for an integer
    [0 <= r < 2 ** 53]; [pick] is the index [random.choice] draws. *)
Definition charge (r : Z) (pick : nat) (now : datetime) (self : t)
    (amount : Money.t) (payment_method_id customer_id : string)
  : (bool * string) * t :=
  let counter := _counter self + 1 in
  let transaction_id := tx_key counter in
  if rate_num self * 2 ^ 53 <? r * rate_den self then
    ((false, nth (pick mod 4) error_reasons ""),
     mk (rate_num self) (rate_den self) (transactions self) counter)
  else
    ((true, transaction_id),
     mk (rate_num self) (rate_den self)
        (<[transaction_id :=
             mkTx (Money.amount amount) (Money.currency amount) customer_id
                  "completed" now]> (transactions self))
        counter).

(** [refund] *)
Definition refund (self : t) (transaction_id : string) (amount : Money.t)
  : (bool * string) * t :=
  match transactions self !! transaction_id with
  | None => ((false, "Transaction not found"), self)
  | Some tx =>
      ((true, "mock_refund_" +:+ pretty (_counter self)),
       mk (rate_num self) (rate_den self)
          (<[transaction_id :=
               mkTx (Mock.amount tx) (currency tx) (customer_id tx)
                    "refunded" (timestamp tx)]> (transactions self))
          (_counter self))
  end.

(** [create_payment_method] *)
Definition create_payment_method (self : t) (token : string)
  : bool * string * string :=
  (true, "mock_pm_" +:+ pretty (_counter self), "Mock payment method created").

(** The states a mock gateway goes through: charges and refunds from
    the initial one. *)
Inductive reachable : t -> Prop :=
| reach_init (n d : Z) : reachable (__init__ n d)
| reach_charge (m : t) (r : Z) (pick : nat) (now : datetime)
    (amount : Money.t) (pm customer : string) :
    reachable m -> reachable (snd (charge r pick now m amount pm customer))
| reach_refund (m : t) (transaction_id : string) (amount : Money.t) :
    reachable m -> reachable (snd (refund m transaction_id amount)).

End Mock.

(** ** The state the managers work on *)

Definition UUID : Type := N.

(** [core.models.SubscriptionPlan] *)
Record SubscriptionPlan : Type := mkPlan {
  plan_id : UUID;
  name : string;
  price : Decimal;
  billing_cycle_days : Z;
  trial_period_days : Z;
  plan_is_active : bool;
  max_retries : Z
}.

(** [core.models.Subscription]; the relationship [subscription.plan] is
    the row of [plans] under [sub_plan_id]. *)
Record Subscription : Type := mkSub {
  sub_id : UUID;
  user_id : UUID;
  sub_plan_id : UUID;
  status : string;
  current_period_start : datetime;
  current_period_end : datetime;
  cancel_at_period_end : bool;
  cancelled_at : option datetime;
  trial_start : option datetime;
  trial_end : option datetime;
  payment_method_id : string;
  auto_renew : bool;
  retry_count : Z
}.

(** [core.models.Transaction] *)
Record Transaction : Type := mkTx {
  tx_id : UUID;
  tx_user_id : UUID;
  tx_amount : Decimal;
  tx_status : string;
  tx_description : string
}.

(** What the gateway answers to a charge. *)
Inductive outcome : Type :=
| Succeeded
| InsufficientFunds
| GatewayFailure (msg : string).

(** Calls that leave the process: the gateway, the notification
    service, the retry queue, the administrators. *)
Inductive Event : Type :=
| Charge (user : UUID) (amount : Decimal) (payment_method description : string)
| Refund (subscription : UUID) (amount : Decimal)
| Notification (user : UUID) (event_type : string)
| RetryScheduled (subscription : UUID) (retry_date : datetime)
| AdminAlert (kind : string) (subscription user : UUID) (error : string).

Record World : Type := mkWorld {
  now : datetime;
  next_id : UUID;
  plans : gmap N SubscriptionPlan;
  subscriptions : gmap N Subscription;
  transactions : gmap N Transaction;
  charge_outcome : UUID -> Decimal -> string -> outcome;
  refund_outcome : UUID -> Decimal -> bool;
  events : list Event
}.

Definition set_next_id (n : UUID) (w : World) : World :=
  mkWorld (now w) n (plans w) (subscriptions w) (transactions w)
          (charge_outcome w) (refund_outcome w) (events w).
Definition set_subscriptions (m : gmap N Subscription) (w : World) : World :=
  mkWorld (now w) (next_id w) (plans w) m (transactions w)
          (charge_outcome w) (refund_outcome w) (events w).
Definition set_transactions (m : gmap N Transaction) (w : World) : World :=
  mkWorld (now w) (next_id w) (plans w) (subscriptions w) m
          (charge_outcome w) (refund_outcome w) (events w).
Definition set_events (l : list Event) (w : World) : World :=
  mkWorld (now w) (next_id w) (plans w) (subscriptions w) (transactions w)
          (charge_outcome w) (refund_outcome w) l.

Definition set_status (st : string) (s : Subscription) : Subscription :=
  mkSub (sub_id s) (user_id s) (sub_plan_id s) st (current_period_start s)
        (current_period_end s) (cancel_at_period_end s) (cancelled_at s)
        (trial_start s) (trial_end s) (payment_method_id s) (auto_renew s)
        (retry_count s).
Definition set_retry_count (n : Z) (s : Subscription) : Subscription :=
  mkSub (sub_id s) (user_id s) (sub_plan_id s) (status s)
        (current_period_start s) (current_period_end s)
        (cancel_at_period_end s) (cancelled_at s) (trial_start s)
        (trial_end s) (payment_method_id s) (auto_renew s) n.
Definition set_sub_plan_id (p : UUID) (s : Subscription) : Subscription :=
  mkSub (sub_id s) (user_id s) p (status s) (current_period_start s)
        (current_period_end s) (cancel_at_period_end s) (cancelled_at s)
        (trial_start s) (trial_end s) (payment_method_id s) (auto_renew s)
        (retry_count s).
Definition set_current_period_end (d : datetime) (s : Subscription)
  : Subscription :=
  mkSub (sub_id s) (user_id s) (sub_plan_id s) (status s)
        (current_period_start s) d (cancel_at_period_end s) (cancelled_at s)
        (trial_start s) (trial_end s) (payment_method_id s) (auto_renew s)
        (retry_count s).
Definition set_cancel_at_period_end (b : bool) (s : Subscription)
  : Subscription :=
  mkSub (sub_id s) (user_id s) (sub_plan_id s) (status s)
        (current_period_start s) (current_period_end s) b (cancelled_at s)
        (trial_start s) (trial_end s) (payment_method_id s) (auto_renew s)
        (retry_count s).
Definition set_cancelled_at (d : option datetime) (s : Subscription)
  : Subscription :=
  mkSub (sub_id s) (user_id s) (sub_plan_id s) (status s)
        (current_period_start s) (current_period_end s)
        (cancel_at_period_end s) d (trial_start s) (trial_end s)
        (payment_method_id s) (auto_renew s) (retry_count s).

(** ** The monad of methods that read and change the world or raise *)

Definition M (A : Type) : Type := World -> result A * World.

Definition ret {A} (a : A) : M A := fun w => (Ok a, w).
Definition raise {A} (e : exn) : M A := fun w => (Raise e, w).
Definition bind {A B} (m : M A) (k : A -> M B) : M B :=
  fun w => match m w with
           | (Ok a, w') => k a w'
           | (Raise e, w') => (Raise e, w')
           end.

Notation "x <- m ;; k" := (bind m (fun x => k))
  (at level 100, m at next level, right associativity).
Notation "m ;;; k" := (bind m (fun _ => k))
  (at level 100, right associativity).

Definition get {A} (f : World -> A) : M A := fun w => (Ok (f w), w).
Definition modify (f : World -> World) : M unit := fun w => (Ok tt, f w).
Definition emit (e : Event) : M unit :=
  modify (fun w => set_events (events w ++ [e]) w).
Definition of_option {A} (o : option A) (e : exn) : M A :=
  match o with Some a => ret a | None => raise e end.

(** [datetime.now()] *)
Definition datetime_now : M datetime := get now.

(** [uuid4()] *)
Definition uuid4 : M UUID :=
  fun w => (Ok (next_id w), set_next_id (N.succ (next_id w)) w).

(** A change to a loaded [Subscription] object is a change to its row. *)
Definition put_subscription (s : Subscription) : M unit :=
  modify (fun w => set_subscriptions (<[sub_id s := s]> (subscriptions w)) w).
Definition put_transaction (t : Transaction) : M unit :=
  modify (fun w => set_transactions (<[tx_id t := t]> (transactions w)) w).

(** [subscription.plan] *)
Definition plan_of (s : Subscription) : M SubscriptionPlan :=
  p <- get (fun w => plans w !! sub_plan_id s) ;;
  of_option p (OtherError "subscription has no plan").

(** [x / y] on decimals *)
Definition dec_div (x y : Decimal) : M Decimal :=
  of_option (Dec.div x y) DecimalError.

(** [str(e)] *)
Definition exn_message (e : exn) : string :=
  match e with
  | ValueError m | SubscriptionError m | InsufficientFundsError m
  | PaymentProcessingError m | NotFound m | OtherError m => m
  | DecimalError => "decimal.DivisionByZero"
  end.

(** ** Collaborators whose code is outside the sources *)

(** Modelled from the spec: [payment.processors.PaymentProcessor.process_payment],
    which the sources import and call but do not contain (§4.3).  It
    persists a pending transaction, invokes the gateway charge, and on
    success returns the completed transaction; on a funds failure it
    marks the transaction failed and raises [InsufficientFundsError], on
    any other failure [PaymentProcessingError]. *)
Definition process_payment (user_id : UUID) (amount : Decimal)
    (payment_method_id description : string) : M Transaction :=
  tid <- uuid4 ;;
  put_transaction (mkTx tid user_id amount "pending" description) ;;;
  emit (Charge user_id amount payment_method_id description) ;;;
  o <- get (fun w => charge_outcome w user_id amount payment_method_id) ;;
  match o with
  | Succeeded =>
      put_transaction (mkTx tid user_id amount "completed" description) ;;;
      ret (mkTx tid user_id amount "completed" description)
  | InsufficientFunds =>
      put_transaction (mkTx tid user_id amount "failed" description) ;;;
      raise (InsufficientFundsError "Insufficient funds")
  | GatewayFailure msg =>
      put_transaction (mkTx tid user_id amount "failed" description) ;;;
      raise (PaymentProcessingError msg)
  end.

(** Modelled from the spec: [subscription.plans.PlanCalculator.get_plan],
    imported but not among the sources (§4.4): lookup, fails with
    NotFound if the plan is missing or inactive. *)
Definition get_plan (plan_id : UUID) : M SubscriptionPlan :=
  p <- get (fun w => plans w !! plan_id) ;;
  match p with
  | Some pl => if plan_is_active pl then ret pl
               else raise (NotFound "plan is inactive")
  | None => raise (NotFound "plan not found")
  end.

(** Modelled from the spec: [notification_service.send_notification],
    the service handed to the managers and absent from the sources: fire
    and forget (§6). *)
Definition send_notification (user_id : UUID) (event_type : string) : M unit :=
  emit (Notification user_id event_type).

(** ** [subscription.lifecycle.SubscriptionLifecycleManager] *)

Module Lifecycle.

Record CreateResult : Type := mkCreate {
  success : bool;
  subscription_id : UUID;
  transaction_id : option UUID;
  trial_ends_at : option datetime;
  next_billing_date : datetime
}.

Record UpgradeResult : Type := mkUpgrade {
  u_success : bool;
  u_subscription_id : UUID;
  u_transaction_id : option UUID;
  prorated_amount : Decimal;
  new_plan : string
}.

(** The dictionary [_setup_trial_period] returns. *)
Record TrialPeriod : Type := mkTrial {
  tp_start : datetime;
  tp_end : datetime;
  tp_active : bool
}.

(** The statuses that block a new subscription (§4.5). *)
Definition blocking (st : string) : bool :=
  existsb (String.eqb st) ["active"; "trial"; "past_due"].

(** Modelled from the spec: the method [_get_active_subscription],
    called by [create_subscription] with the user alone and defined
    nowhere in the sources.  It finds a subscription of the user whose
    status is active, trial or past_due (§4.5). *)
Definition find_active_subscription (user : UUID) (w : World)
  : option Subscription :=
  List.find (fun s => (user_id s =? user)%N && blocking (status s))
            (snd <$> map_to_list (subscriptions w)).

(** Modelled from the spec: the method [_get_subscription], absent
    from the sources: the row, or NotFound (§7). *)
Definition _get_subscription (subscription_id : UUID) : M Subscription :=
  s <- get (fun w => subscriptions w !! subscription_id) ;;
  of_option s (NotFound "subscription not found").

(** Modelled from the spec: the method [_create_subscription_record],
    absent from the sources: a new row with the fields it is called
    with, [retry_count = 0] and [auto_renew] set (§3). *)
Definition _create_subscription_record (user_id plan_id : UUID)
    (status : string) (period_start period_end : datetime)
    (trial_period : option TrialPeriod) (payment_method_id : string)
  : M Subscription :=
  sid <- uuid4 ;;
  let s := mkSub sid user_id plan_id status period_start period_end false
                 None (tp_start <$> trial_period) (tp_end <$> trial_period)
                 payment_method_id true 0 in
  put_subscription s ;;;
  ret s.

(** Modelled from the spec: the method [_update_subscription_plan],
    absent from the sources: swaps [plan_id], leaves
    [current_period_end], resets [retry_count] to 0 (§4.5). *)
Definition _update_subscription_plan (subscription : Subscription)
    (new_plan_id : UUID) : M Subscription :=
  let s := set_retry_count 0 (set_sub_plan_id new_plan_id subscription) in
  put_subscription s ;;;
  ret s.

(** [_apply_promo_code]: returns [Decimal('0')] on both paths. *)
Definition _apply_promo_code (promo_code : option string)
    (plan : SubscriptionPlan) (user_id : UUID) : Decimal :=
  match promo_code with
  | None | Some "" => Dec.zero
  | Some _ => Dec.zero
  end.

(** [_setup_trial_period] *)
Definition _setup_trial_period (trial_days : Z)
    (period_start period_end : datetime) : TrialPeriod :=
  let trial_end := period_start + days trial_days in
  mkTrial period_start trial_end true.

(** [_send_subscription_created_notifications] *)
Definition _send_subscription_created_notifications (user_id : UUID)
    (subscription : Subscription) (transaction : option Transaction)
  : M unit :=
  _ <- plan_of subscription ;;
  send_notification user_id "subscription_created".

Section Create.

(** The query [self._get_active_subscription(user_id)]: it is
    handed the user and nothing else. *)
Variable _get_active_subscription : UUID -> World -> option Subscription.

(** [create_subscription].  The [try ... except Exception: log; raise]
    around the body re-raises what the body raised. *)
Definition create_subscription (user_id plan_id : UUID)
    (payment_method_id : string) (promo_code : option string)
  : M CreateResult :=
  existing_sub <- get (_get_active_subscription user_id) ;;
  match existing_sub with
  | Some _ =>
      raise (SubscriptionError "User already has an active subscription")
  | None =>
      plan <- get_plan plan_id ;;
      let discount := _apply_promo_code promo_code plan user_id in
      period_start <- datetime_now ;;
      let period_end := period_start + days (billing_cycle_days plan) in
      let trial_period :=
        if 0 <? trial_period_days plan
        then Some (_setup_trial_period (trial_period_days plan)
                                       period_start period_end)
        else None in
      transaction <-
        match trial_period with
        | None =>
            t <- process_payment user_id (Dec.sub (price plan) discount)
                   payment_method_id ("Subscription to " +:+ name plan) ;;
            ret (Some t)
        | Some _ => ret None
        end ;;
      subscription <-
        _create_subscription_record user_id plan_id
          (match trial_period with
           | Some _ => "active"
           | None => "pending"
           end)
          period_start period_end trial_period payment_method_id ;;
      _send_subscription_created_notifications
        user_id subscription transaction ;;;
      ret (mkCreate true (sub_id subscription) (tx_id <$> transaction)
                    (tp_end <$> trial_period) period_end)
  end.

End Create.

Section Cancel.

(** The methods [_cancel_immediately] and [_cancel_at_period_end] are
    called by [cancel_subscription] and defined nowhere in the sources;
    so is the shape of the dictionary they return. *)
Variable CancelResult : Type.
Variable _cancel_immediately : Subscription -> M CancelResult.
Variable _cancel_at_period_end : Subscription -> M CancelResult.


End Cancel.

(** The arithmetic of [_calculate_prorated_amount] at the clock
    reading [t]; [None] when [total_days] is zero and the division
    raises. *)
Definition prorate (t period_start period_end : datetime)
    (current_price new_price : Decimal) : option Decimal :=
  let days_used := td_days (t - period_start) in
  let total_days := td_days (period_end - period_start) in
  let days_remaining := total_days - days_used in
  daily_rate_current ← Dec.div current_price (Dec.of_int total_days);
  daily_rate_new ← Dec.div new_price (Dec.of_int total_days);
  let amount_paid := Dec.mul daily_rate_current (Dec.of_int days_used) in
  let amount_due := Dec.mul daily_rate_new (Dec.of_int days_remaining) in
  Some (Dec.max (Dec.sub amount_due amount_paid) Dec.zero).

(** [_calculate_prorated_amount] *)
Definition _calculate_prorated_amount (subscription : Subscription)
    (current_plan new_plan : SubscriptionPlan) : M Decimal :=
  t <- datetime_now ;;
  of_option (prorate t (current_period_start subscription)
                     (current_period_end subscription)
                     (price current_plan) (price new_plan))
            DecimalError.

(** [_validate_upgrade] *)
Definition _validate_upgrade (current_plan new_plan : SubscriptionPlan)
  : M unit :=
  if Dec.leb (price new_plan) (price current_plan) then
    raise (SubscriptionError "New plan must be more expensive for upgrade")
  else ret tt.

(** [upgrade_subscription] *)
Definition upgrade_subscription (subscription_id new_plan_id : UUID)
  : M UpgradeResult :=
  subscription <- _get_subscription subscription_id ;;
  current_plan <- plan_of subscription ;;
  new_plan <- get_plan new_plan_id ;;
  _validate_upgrade current_plan new_plan ;;;
  prorated_amount <-
    _calculate_prorated_amount subscription current_plan new_plan ;;
  transaction <-
    (if Dec.ltb Dec.zero prorated_amount then
       t <- process_payment (user_id subscription) prorated_amount
              (payment_method_id subscription)
              ("Upgrade from " +:+ name current_plan +:+ " to "
               +:+ name new_plan) ;;
       ret (Some t)
     else ret None) ;;
  updated_subscription <-
    _update_subscription_plan subscription new_plan_id ;;
  send_notification (user_id subscription) "upgrade_completed" ;;;
  ret (mkUpgrade true (sub_id updated_subscription) (tx_id <$> transaction)
                 prorated_amount (name new_plan)).



Record RenewResult : Type := mkRenew {
  r_success : bool;
  r_subscription_id : UUID;
  r_transaction_id : UUID;
  r_next_billing_date : datetime;
  r_amount : Decimal
}.

(** Modelled from the spec: the method [_extend_subscription_period],
    absent from the sources: [current_period_end] becomes the date it is
    given (§4.5). *)
Definition _extend_subscription_period (subscription : Subscription)
    (next_end : datetime) : M Subscription :=
  let s := set_current_period_end next_end subscription in
  put_subscription s ;;;
  ret s.

(** Modelled from the spec: the method [_send_renewal_notifications],
    absent from the sources: the payment is announced to the user (§6). *)
Definition _send_renewal_notifications (user_id : UUID) (plan_name : string)
    (amount : Decimal) : M unit :=
  send_notification user_id "payment_success".

(** [renew_subscription] *)
Definition renew_subscription (subscription_id : UUID) : M RenewResult :=
  subscription <- _get_subscription subscription_id ;;
  if negb (String.eqb (status subscription) "active") then
    raise (SubscriptionError "Only active subscriptions can be renewed")
  else
    let current_end := current_period_end subscription in
    plan <- plan_of subscription ;;
    let next_end := current_end + days (billing_cycle_days plan) in
    transaction <-
      process_payment (user_id subscription) (price plan)
        (payment_method_id subscription) ("Renewal of " +:+ name plan) ;;
    updated_subscription <-
      _extend_subscription_period subscription next_end ;;
    _send_renewal_notifications (user_id subscription) (name plan)
                                (tx_amount transaction) ;;;
    ret (mkRenew true (sub_id updated_subscription) (tx_id transaction)
                 next_end (tx_amount transaction)).

End Lifecycle.

(** ** [subscription.billing.BillingEngine] *)

Module Billing.

(** [self.retry_config] *)
Record RetryConfig : Type := mkRetry {
  max_attempts : Z;
  initial_delay : Z;
  backoff_factor : Z;
  max_delay : Z
}.

Definition retry_config : RetryConfig := mkRetry 3 1 2 24.

(** The dictionaries the engine returns per subscription; a key that a
    path does not set is [None] (or [false] for ['cancelled']). *)
Record BillingResult : Type := mkResult {
  subscription_id : UUID;
  success : bool;
  error : option string;
  transaction_id : option UUID;
  amount : option Decimal;
  next_billing_date : option datetime;
  cancelled : bool;
  retry_scheduled : option datetime;
  result_retry_count : option Z
}.

Definition failure (sid : UUID) (msg : string) : BillingResult :=
  mkResult sid false (Some msg) None None None false None None.

(** Modelled from the spec: the method
    [_cancel_subscription_for_non_payment], absent from the sources:
    the subscription becomes cancelled (§4.6). *)
Definition _cancel_subscription_for_non_payment (subscription : Subscription)
  : M unit :=
  put_subscription (set_status "cancelled" subscription).

(** Modelled from the spec: the method [_schedule_retry], absent from
    the sources: the retry date is persisted for later pickup (§4.6). *)
Definition _schedule_retry (subscription_id : UUID) (retry_date : datetime)
  : M unit :=
  emit (RetryScheduled subscription_id retry_date).

(** Modelled from the spec: the method
    [_send_payment_failed_notification], absent from the sources (§6). *)
Definition _send_payment_failed_notification (user_id : UUID)
    (subscription : Subscription) (reason : string) : M unit :=
  send_notification user_id "payment_failed".

(** Modelled from the spec: the method [_send_admin_alert], absent
    from the sources (§4.6). *)
Definition _send_admin_alert (kind : string) (subscription_id user_id : UUID)
    (error : string) : M unit :=
  emit (AdminAlert kind subscription_id user_id error).

(** Modelled from the spec: the method [_extend_subscription], absent
    from the sources: [current_period_end] is extended, [retry_count]
    reset to 0, the state stays active (§4.6). *)
Definition _extend_subscription (subscription_id : UUID)
    (next_period_end : datetime) : M Subscription :=
  s <- get (fun w => subscriptions w !! subscription_id) ;;
  s <- of_option s (NotFound "subscription not found") ;;
  let s' := set_retry_count 0 (set_current_period_end next_period_end s) in
  put_subscription s' ;;;
  ret s'.

(** [_acquire_lock]: the stub returns [True]. *)
Definition _acquire_lock (subscription_id : UUID) : bool := true.

(** [a / b] rounded to the nearest integer, ties to even. *)
Definition div_half_even (a b : Z) : Z :=
  let q := a / b in
  let r := a mod b in
  if (b <? 2 * r) || ((b =? 2 * r) && Z.odd q) then q + 1 else q.

(** [timedelta(days=initial * factor ** n)].  For [n < 0] Python's
    [**] yields the float [factor ** n] and [timedelta] rounds to the
    microsecond. *)
Definition backoff (initial factor n : Z) : timedelta :=
  if 0 <=? n then days (initial * factor ^ n)
  else div_half_even (days initial) (factor ^ (- n)).

(** [_handle_insufficient_funds] *)
Definition _handle_insufficient_funds (subscription : Subscription)
  : M BillingResult :=
  let subscription :=
    set_retry_count (retry_count subscription + 1) subscription in
  put_subscription subscription ;;;
  plan <- plan_of subscription ;;
  if max_retries plan <=? retry_count subscription then
    _cancel_subscription_for_non_payment subscription ;;;
    ret (mkResult (sub_id subscription) false
                  (Some "Subscription cancelled due to non-payment")
                  None None None true None None)
  else
    t <- datetime_now ;;
    let retry_date :=
      t + backoff (initial_delay retry_config) (backoff_factor retry_config)
                  (retry_count subscription - 1) in
    _schedule_retry (sub_id subscription) retry_date ;;;
    _send_payment_failed_notification
      (user_id subscription) subscription "insufficient_funds" ;;;
    ret (mkResult (sub_id subscription) false (Some "Insufficient funds")
                  None None None false (Some retry_date)
                  (Some (retry_count subscription))).

(** [_handle_payment_error] *)
Definition _handle_payment_error (subscription : Subscription)
    (error_message : string) : M BillingResult :=
  _send_admin_alert "payment_gateway_error" (sub_id subscription)
                    (user_id subscription) error_message ;;;
  ret (failure (sub_id subscription)
               ("Payment gateway error: " +:+ error_message)).

(** The [try] block of [_process_subscription_payment] before its
    [except] clauses. *)
Definition charge_and_extend (subscription : Subscription)
  : M BillingResult :=
  plan <- plan_of subscription ;;
  transaction <-
    process_payment (user_id subscription) (price plan)
      (payment_method_id subscription) ("Auto-renewal of " +:+ name plan) ;;
  let next_period_end :=
    current_period_end subscription + days (billing_cycle_days plan) in
  _ <- _extend_subscription (sub_id subscription) next_period_end ;;
  ret (mkResult (sub_id subscription) true None (Some (tx_id transaction))
                (Some (tx_amount transaction)) (Some next_period_end)
                false None None).

(** [_process_subscription_payment]: [InsufficientFundsError] and
    [PaymentProcessingError] go to their handlers; whatever else is
    raised, also by a handler, becomes a failure dictionary in the
    outer [except Exception].  [_release_lock] has no effect on the
    state modelled. *)
Definition _process_subscription_payment (subscription : Subscription)
  : M BillingResult :=
  fun w =>
    if negb (_acquire_lock (sub_id subscription)) then
      (Ok (failure (sub_id subscription) "Could not acquire lock"), w)
    else
      let handled :=
        match charge_and_extend subscription w with
        | (Ok r, w') => (Ok r, w')
        | (Raise (InsufficientFundsError _), w') =>
            _handle_insufficient_funds subscription w'
        | (Raise (PaymentProcessingError msg), w') =>
            _handle_payment_error subscription msg w'
        | (Raise e, w') => (Raise e, w')
        end in
      match handled with
      | (Ok r, w') => (Ok r, w')
      | (Raise e, w') => (Ok (failure (sub_id subscription) (exn_message e)), w')
      end.

(** Modelled from the spec: the query
    [_get_subscriptions_due_for_payment], absent from the sources:
    active, auto-renewing subscriptions whose period has ended (§4.6). *)
Definition _get_subscriptions_due_for_payment : M (list Subscription) :=
  get (fun w =>
    List.filter (fun s => String.eqb (status s) "active"
                          && (current_period_end s <=? now w)
                          && auto_renew s)
                (snd <$> map_to_list (subscriptions w))).

(** The loop over the futures of [process_recurring_payments], the
    subscriptions taken one after the other in the order submitted: a
    result is appended for each, also when its future raised. *)
Fixpoint collect (subs : list Subscription) : M (list BillingResult) :=
  match subs with
  | [] => ret []
  | sub :: rest =>
      fun w =>
        let '(r, w') :=
          match _process_subscription_payment sub w with
          | (Ok r, w') => (r, w')
          | (Raise e, w') => (failure (sub_id sub) (exn_message e), w')
          end in
        match collect rest w' with
        | (Ok rs, w'') => (Ok (r :: rs), w'')
        | (Raise e, w'') => (Raise e, w'')
        end
  end.

(** [process_recurring_payments] *)
Definition process_recurring_payments : M (list BillingResult) :=
  subscriptions <- _get_subscriptions_due_for_payment ;;
  collect subscriptions.

End Billing.

(** ** [api.routes.subscription] *)

Module Routes.

(** What a route hands to the framework: the response model, or the
    [HTTPException] it raises. *)
Inductive http (A : Type) : Type :=
| Response (a : A)
| HTTPException (status_code : Z) (detail : string).
Arguments Response {A} a.
Arguments HTTPException {A} status_code detail.

(** The fields of [api.schemas.SubscriptionResponse] that the routes
    fill; a field a route leaves out is [None]. *)
Record SubscriptionResponse : Type := mkResponse {
  subscription_id : UUID;
  status : string;
  plan_id : option UUID;
  current_period_start : option datetime;
  current_period_end : option datetime;
  trial_ends_at : option datetime;
  last_renewal : option datetime
}.

Record InvoiceResponse : Type := mkInvoice {
  invoice_data : string;
  format : string;
  filename : string
}.

(** The route [POST /subscriptions/]: [current_user] is the id of the
    authenticated user; the welcome notification queued as a background
    job does nothing. *)
Definition create_subscription
    (_get_active_subscription : UUID -> World -> option Subscription)
    (current_user plan_id : UUID) (payment_method_id : string)
    (promo_code : option string) (w : World)
  : http SubscriptionResponse * World :=
  match Lifecycle.create_subscription _get_active_subscription current_user
          plan_id payment_method_id promo_code w with
  | (Ok result, w') =>
      (Response (mkResponse (Lifecycle.subscription_id result) "active"
                            (Some plan_id) (Some (now w'))
                            (Some (Lifecycle.next_billing_date result))
                            (Lifecycle.trial_ends_at result) None), w')
  | (Raise e, w') => (HTTPException 400 (exn_message e), w')
  end.

(** The route [POST /subscriptions/{subscription_id}/renew] *)
Definition renew_subscription (subscription_id : UUID) (w : World)
  : http SubscriptionResponse * World :=
  match Lifecycle.renew_subscription subscription_id w with
  | (Ok result, w') =>
      (Response (mkResponse subscription_id "active" None None
                            (Some (Lifecycle.r_next_billing_date result))
                            None (Some (now w'))), w')
  | (Raise e, w') => (HTTPException 400 (exn_message e), w')
  end.

(** [_get_last_subscription_transaction]: the body is [pass]. *)
Definition _get_last_subscription_transaction (subscription_id : UUID)
  : option Transaction := None.

Section Invoice.

(** [billing_service.generate_invoice], and the renderings the route
    needs: [str(uuid)], [base64.b64encode(...).decode('utf-8')],
    [str(datetime.now().date())] and [str(e)] of an [HTTPException]. *)
Variable generate_invoice : string -> M (list Byte.byte).
Variable str_uuid : UUID -> string.
Variable b64encode : list Byte.byte -> string.
Variable str_date : datetime -> string.
Variable str_http : Z -> string -> string.

(** The route [GET /subscriptions/{subscription_id}/invoice].  The
    [HTTPException] raised inside the [try] is caught by its
    [except Exception] like any other. *)
Definition get_invoice (subscription_id : UUID) (transaction_id : option UUID)
    (w : World) : http InvoiceResponse * World :=
  let fetched :=
    match transaction_id with
    | Some t => Some (generate_invoice (str_uuid t) w)
    | None =>
        match _get_last_subscription_transaction subscription_id with
        | None => None
        | Some last_transaction =>
            Some (generate_invoice (str_uuid (tx_id last_transaction)) w)
        end
    end in
  match fetched with
  | None =>
      (HTTPException 400
         (str_http 404 "No transactions found for subscription"), w)
  | Some (Ok invoice_bytes, w') =>
      (Response (mkInvoice (b64encode invoice_bytes) "pdf"
                   ("invoice_" +:+ str_uuid subscription_id +:+ "_"
                    +:+ str_date (now w') +:+ ".pdf")), w')
  | Some (Raise e, w') => (HTTPException 400 (exn_message e), w')
  end.

End Invoice.

End Routes.

(** ** Numeric equality of optional decimals *)


(** ** The errors of the lifecycle manager *)

Definition already_active : exn :=
  SubscriptionError "User already has an active subscription".
Definition invalid_upgrade : exn :=
  SubscriptionError "New plan must be more expensive for upgrade".

(** ** Sample data *)

(** Two plans: Basic at 1000.00 without trial, Pro at 3000.00 with a
    week of trial and seven retries. *)
Definition basic : SubscriptionPlan :=
  mkPlan 1%N "Basic" (Dec.cents 100000) 30 0 true 3.
Definition pro : SubscriptionPlan :=
  mkPlan 2%N "Pro" (Dec.cents 300000) 30 7 true 7.

Definition sample_plans : gmap N SubscriptionPlan :=
  <[1%N := basic]> {[ 2%N := pro ]}.

(** A world at day 100 holding the subscription [s] under key 5, with a
    gateway that answers every charge with [o]. *)
Definition world_with (s : option Subscription) (o : outcome) : World :=
  mkWorld (days 100) 10%N sample_plans
          (match s with Some s => {[ 5%N := s ]} | None => ∅ end) ∅
          (fun _ _ _ => o) (fun _ _ => true) [].

(** Subscriptions of user 7: active on Pro, active on Basic, cancelled,
    expired, and one on Pro that has failed five charges. *)
Definition on_pro : Subscription :=
  mkSub 5%N 7%N 2%N "active" (days 90) (days 120) false None None None
        "pm" true 0.
Definition on_basic : Subscription :=
  mkSub 5%N 7%N 1%N "active" (days 90) (days 120) false None None None
        "pm" true 0.
Definition gone : Subscription :=
  mkSub 5%N 7%N 1%N "cancelled" (days 90) (days 120) false (Some (days 95))
        None None "pm" true 0.
Definition late : Subscription :=
  mkSub 5%N 7%N 2%N "active" (days 70) (days 100) false None None None
        "pm" true 5.

Definition w_on_pro : World := world_with (Some on_pro) Succeeded.
Definition w_on_basic : World := world_with (Some on_basic) Succeeded.
Definition w_gone : World := world_with (Some gone) Succeeded.
Definition w_late : World := world_with (Some late) InsufficientFunds.
Definition w_down : World := world_with (Some late) (GatewayFailure "timeout").

(** Unfolding of the monad's combinators. *)
Ltac run :=
  unfold bind, ret, raise, get, modify, emit, of_option, datetime_now, uuid4,
         put_subscription, put_transaction, plan_of, dec_div,
         send_notification; cbn.

(** ** Further definitions used in the statements *)

(** Every key of a reachable gateway was drawn from its counter. *)
Definition keys_below (m : Mock.t) : Prop :=
  forall k tx, Mock.transactions m !! k = Some tx ->
    exists n, 1 <= n <= Mock._counter m /\ k = Mock.tx_key n.



(** * Properties *)

(** ** Decimal arithmetic: signs survive rounding *)

Module DecFacts.
Import Dec.

Lemma ndigits_aux_lower (fuel : nat) : forall n,
  0 < n < 2 ^ Z.of_nat fuel ->
  1 <= ndigits_aux fuel n /\ 10 ^ (ndigits_aux fuel n - 1) <= n.
Proof.
  induction fuel as [|f IH]; intros n [Hpos Hlt].
  - simpl in Hlt. lia.
  - cbn [ndigits_aux]. destruct (Z.leb_spec n 0) as [|_]; [lia|].
    destruct (Z.ltb_spec n 10) as [Hsmall|Hbig].
    + rewrite Z.div_small by lia.
      replace (ndigits_aux f 0) with 0 by (destruct f; reflexivity).
      simpl. lia.
    + assert (Hq : 0 < n / 10 < 2 ^ Z.of_nat f).
      { split.
        - apply Z.div_str_pos. lia.
        - apply Z.div_lt_upper_bound; [lia|].
          rewrite Nat2Z.inj_succ, Z.pow_succ_r in Hlt by lia. lia. }
      destruct (IH _ Hq) as [H1 H2]. split; [lia|].
      replace (1 + ndigits_aux f (n / 10) - 1)
        with (Z.succ (ndigits_aux f (n / 10) - 1)) by lia.
      rewrite Z.pow_succ_r by lia.
      pose proof (Z.mul_div_le n 10). lia.
Qed.

Lemma ndigits_lower (c : Z) :
  c <> 0 -> 1 <= ndigits c /\ 10 ^ (ndigits c - 1) <= Z.abs c.
Proof.
  intros Hc. unfold ndigits. apply ndigits_aux_lower.
  split; [lia|].
  rewrite Nat2Z.inj_succ, Z2Nat.id by apply Z.log2_nonneg.
  apply Z.log2_spec. lia.
Qed.

(** Rounding to the context precision keeps the sign. *)
Lemma fix_sgn (d : Decimal) : Z.sgn (coeff (_fix d)) = Z.sgn (coeff d).
Proof.
  unfold _fix.
  destruct (Z.eqb_spec (coeff d) 0) as [|Hc]; [reflexivity|].
  destruct (Z.leb_spec (ndigits (coeff d) - prec) 0) as [|Hk]; [reflexivity|].
  cbn [orb].
  set (k := ndigits (coeff d) - prec) in *.
  destruct (ndigits_lower _ Hc) as [_ Hlow].
  assert (Hq : 10 ^ 27 <= Z.abs (coeff d) / 10 ^ k).
  { apply Z.div_le_lower_bound; [apply Z.pow_pos_nonneg; lia|].
    rewrite <- Z.pow_add_r by lia.
    replace (k + 27) with (ndigits (coeff d) - 1) by (unfold k, prec; lia).
    exact Hlow. }
  assert (H27 : 0 < 10 ^ 27) by (apply Z.pow_pos_nonneg; lia).
  set (q := Z.abs (coeff d) / 10 ^ k) in *.
  set (q' := if _ : bool then q + 1 else q).
  assert (Hq' : 0 < q') by (unfold q'; destruct (_ || _); lia).
  destruct (Z.eqb_spec q' (10 ^ prec)) as [E|_]; cbn [coeff].
  - rewrite E. replace (10 ^ prec / 10) with (10 ^ 27) by reflexivity.
    rewrite Z.sgn_mul, (Z.sgn_pos (10 ^ 27)) by lia. rewrite Z.sgn_sgn. lia.
  - rewrite Z.sgn_mul, (Z.sgn_pos q') by lia. rewrite Z.sgn_sgn. lia.
Qed.

Lemma fix_neg (d : Decimal) : coeff (_fix d) < 0 <-> coeff d < 0.
Proof. pose proof (fix_sgn d). lia. Qed.

Lemma fix_nonneg (d : Decimal) : 0 <= coeff d -> 0 <= coeff (_fix d).
Proof. pose proof (fix_sgn d). lia. Qed.



(** [x < 0] looks at the coefficient alone. *)
Lemma ltb_zero (x : Decimal) : ltb x zero = (coeff x <? 0).
Proof.
  unfold ltb, align, zero, of_int. cbn [fst snd coeff exp].
  assert (0 < 10 ^ (exp x - Z.min (exp x) 0)) by (apply Z.pow_pos_nonneg; lia).
  destruct (Z.ltb_spec (coeff x) 0);
    destruct (Z.ltb_spec (coeff x * 10 ^ (exp x - Z.min (exp x) 0))
                         (0 * 10 ^ (0 - Z.min (exp x) 0)));
    try reflexivity; nia.
Qed.


Lemma align_swap (a b : Decimal) :
  align b a = (snd (align a b), fst (align a b)).
Proof. unfold align. cbn [fst snd]. rewrite (Z.min_comm (exp b)). reflexivity. Qed.

(** [a - b] is negative exactly when [a < b]. *)
Lemma sub_neg (a b : Decimal) : ltb (sub a b) zero = ltb a b.
Proof.
  rewrite ltb_zero. unfold sub, ltb.
  destruct (Z.ltb_spec (fst (align a b)) (snd (align a b))) as [H|H];
    [apply Z.ltb_lt | apply Z.ltb_ge].
  - apply fix_neg. cbn [coeff]. lia.
  - apply fix_nonneg. cbn [coeff]. lia.
Qed.

Lemma leb_ltb (a b : Decimal) : leb b a = negb (ltb a b).
Proof.
  unfold leb, ltb. rewrite (align_swap a b). cbn [fst snd].
  destruct (Z.leb_spec (snd (align a b)) (fst (align a b)));
    destruct (Z.ltb_spec (fst (align a b)) (snd (align a b))); try reflexivity; lia.
Qed.










Lemma eqb_refl (x : Decimal) : eqb x x = true.
Proof. unfold eqb, align. cbn [fst snd]. apply Z.eqb_refl. Qed.




Lemma leb_total (a b : Decimal) : leb a b = false -> leb b a = true.
Proof.
  intros H. unfold leb in H. apply Z.leb_gt in H.
  rewrite (leb_ltb a b). unfold ltb. apply negb_true_iff, Z.ltb_ge. lia.
Qed.

Lemma leb_refl (a : Decimal) : leb a a = true.
Proof. unfold leb. apply Z.leb_refl. Qed.

End DecFacts.

Import DecFacts.

(** ** Decimal arithmetic with special values: where the sign goes *)

Module PyDecFacts.
Import PyDecimal.

Lemma ndigits_aux_zero (fuel : nat) : Dec.ndigits_aux fuel 0 = 0.
Proof. destruct fuel; reflexivity. Qed.

Lemma ndigits_aux_upper (fuel : nat) : forall n,
  0 < n < 2 ^ Z.of_nat fuel -> n < 10 ^ Dec.ndigits_aux fuel n.
Proof.
  induction fuel as [|f IH]; intros n [Hpos Hlt].
  - cbn in Hlt. lia.
  - cbn [Dec.ndigits_aux].
    destruct (Z.leb_spec n 0) as [|_]; [lia|].
    assert (Hnn : 0 <= Dec.ndigits_aux f (n / 10)).
    { clear. generalize (n / 10). induction f as [|f IHf]; intros m; cbn; [lia|].
      destruct (m <=? 0); [lia|]. specialize (IHf (m / 10)). lia. }
    replace (1 + Dec.ndigits_aux f (n / 10))
      with (Z.succ (Dec.ndigits_aux f (n / 10))) by lia.
    rewrite Z.pow_succ_r by exact Hnn.
    pose proof (Z.div_mod n 10 ltac:(lia)) as Hdm.
    pose proof (Z.mod_pos_bound n 10 ltac:(lia)) as Hmod.
    destruct (Z.eq_dec (n / 10) 0) as [E|E].
    + rewrite E, ndigits_aux_zero. cbn. lia.
    + assert (Hq : 0 < n / 10 < 2 ^ Z.of_nat f).
      { split.
        - pose proof (Z.div_pos n 10 ltac:(lia) ltac:(lia)). lia.
        - apply Z.div_lt_upper_bound; [lia|].
          rewrite Nat2Z.inj_succ, Z.pow_succ_r in Hlt by lia. lia. }
      specialize (IH _ Hq). lia.
Qed.

Lemma ndigits_upper (c : Z) : 0 < c -> c < 10 ^ Dec.ndigits c.
Proof.
  intros Hc. unfold Dec.ndigits. rewrite Z.abs_eq by lia.
  apply ndigits_aux_upper. split; [lia|].
  rewrite Nat2Z.inj_succ, Z2Nat.id by apply Z.log2_nonneg.
  apply Z.log2_spec. lia.
Qed.

Lemma ndigits_nonneg (c : Z) : 0 <= Dec.ndigits c.
Proof.
  destruct (Z.eq_dec c 0) as [->|Hn]; [reflexivity|].
  destruct (DecFacts.ndigits_lower c Hn). lia.
Qed.

(** [_fix] keeps the sign bit, and a coefficient that is not negative
    stays so. *)
Lemma fix_shape (s : bool) (c e : Z) (r : t) :
  0 <= c -> _fix s c e = Done r ->
  exists c' e', r = Finite s c' e' /\ 0 <= c'.
Proof.
  intros Hc. unfold _fix.
  destruct (Z.eqb_spec c 0) as [->|Hne].
  { intros [= <-]. eexists _, _. split; [reflexivity|lia]. }
  destruct (Etop <? _); [discriminate|].
  destruct (e <? _); [|intros [= <-]; eexists _, _; split; [reflexivity|lia]].
  destruct (_ <? 0); [intros [= <-]; eexists _, _; split; [reflexivity|lia]|].
  set (k := Dec.ndigits c - _).
  assert (Hq : 0 <= c / 10 ^ k)
    by (apply Z_div_nonneg_nonneg; [lia | apply Z.pow_nonneg; lia]).
  set (q' := if _ : bool then c / 10 ^ k + 1 else c / 10 ^ k).
  assert (Hq' : 0 <= q') by (unfold q'; destruct (_ || _); lia).
  destruct (q' =? 10 ^ prec).
  - destruct (Etop <? _); [discriminate|].
    intros [= <-]. eexists _, _. split; [reflexivity|].
    apply Z.div_pos; lia.
  - intros [= <-]. eexists _, _. split; [reflexivity|exact Hq'].
Qed.

(** Above Etiny nothing underflows: a non-zero coefficient stays
    non-zero, unless the value overflows, which takes a leading digit
    above Emax. *)
Lemma fix_above_tiny (s : bool) (c e : Z) :
  0 < c -> Etiny <= e ->
  (exists c' e', _fix s c e = Done (Finite s c' e') /\ 0 < c') \/
  (_fix s c e = Trap Overflow /\ Emax < Dec.ndigits c + e).
Proof.
  intros Hc He. unfold _fix.
  destruct (Z.eqb_spec c 0) as [|_]; [lia|].
  destruct (DecFacts.ndigits_lower c ltac:(lia)) as [Hlen Hlow].
  rewrite Z.abs_eq in Hlow by lia.
  set (len := Dec.ndigits c) in *.
  destruct (Z.ltb_spec Etop (len + e - prec)) as [Hov|Hov].
  { right. split; [reflexivity|]. unfold Etop, prec in Hov. lia. }
  destruct (Z.ltb_spec (len + e - prec) Etiny) as [Hsub|Hsub].
  { destruct (Z.ltb_spec e Etiny) as [|_]; [lia|].
    left. eexists _, _. split; [reflexivity|lia]. }
  destruct (Z.ltb_spec e (len + e - prec)) as [Hr|_];
    [|left; eexists _, _; split; [reflexivity|lia]].
  replace (len + e - (len + e - prec)) with prec by lia.
  change (prec <? 0) with false. cbv iota.
  set (k := len - prec).
  assert (Hk : 0 < k) by (unfold k; lia).
  assert (Hq : 10 ^ 27 <= c / 10 ^ k).
  { apply Z.div_le_lower_bound; [apply Z.pow_pos_nonneg; lia|].
    rewrite <- Z.pow_add_r by lia.
    replace (k + 27) with (len - 1) by (unfold k, prec; lia).
    exact Hlow. }
  assert (H27 : 0 < 10 ^ 27) by (apply Z.pow_pos_nonneg; lia).
  set (q := c / 10 ^ k) in *.
  set (q' := if _ : bool then q + 1 else q).
  assert (Hq' : 0 < q') by (unfold q'; destruct (_ || _); lia).
  destruct (Z.eqb_spec q' (10 ^ prec)) as [E|_].
  - destruct (Z.ltb_spec Etop (len + e - prec + 1)) as [Hov'|_].
    + right. split; [reflexivity|]. unfold Etop, prec in Hov'. lia.
    + left. eexists _, _. split; [reflexivity|].
      rewrite E. replace (10 ^ prec / 10) with (10 ^ 27) by reflexivity. lia.
  - left. eexists _, _. split; [reflexivity|exact Hq'].
Qed.

(** [d < 0] for a finite [d]: the sign bit of a non-zero coefficient. *)
Lemma lt_zero_finite (s : bool) (c e : Z) :
  __lt__ (Finite s c e) zero = Done (s && negb (c =? 0)).
Proof.
  unfold __lt__, zero, _cmp. cbn [is_nan orb].
  destruct (c =? 0); cbn; [rewrite andb_false_r; reflexivity|].
  destruct s; reflexivity.
Qed.

(** [_cmp] on finite values compares the signed coefficients at the
    smaller exponent. *)
Lemma cmp_finite (s1 s2 : bool) (c1 c2 e1 e2 : Z) :
  0 <= c1 -> 0 <= c2 ->
  _cmp (Finite s1 c1 e1) (Finite s2 c2 e2)
  = (signed s1 (c1 * 10 ^ (e1 - Z.min e1 e2))
     ?= signed s2 (c2 * 10 ^ (e2 - Z.min e1 e2))).
Proof.
  intros H1 H2. unfold _cmp.
  assert (P1 : 0 < 10 ^ (e1 - Z.min e1 e2)) by (apply Z.pow_pos_nonneg; lia).
  assert (P2 : 0 < 10 ^ (e2 - Z.min e1 e2)) by (apply Z.pow_pos_nonneg; lia).
  set (p1 := 10 ^ (e1 - Z.min e1 e2)) in *.
  set (p2 := 10 ^ (e2 - Z.min e1 e2)) in *.
  symmetry.
  destruct (Z.eqb_spec c1 0) as [->|N1]; [destruct (Z.eqb_spec c2 0) as [->|N2]|
    destruct (Z.eqb_spec c2 0) as [->|N2]].
  - destruct s1, s2; reflexivity.
  - destruct s1, s2; cbn [signed]; rewrite ?Z.mul_0_l; cbn [Z.opp];
      try (apply Z.compare_lt_iff; nia); apply Z.compare_gt_iff; nia.
  - destruct s1, s2; cbn [signed]; rewrite ?Z.mul_0_l; cbn [Z.opp];
      try (apply Z.compare_lt_iff; nia); apply Z.compare_gt_iff; nia.
  - destruct s1, s2; cbn [signed andb negb]; try reflexivity;
      try (apply Z.compare_lt_iff; nia); apply Z.compare_gt_iff; nia.
Qed.

(** The difference of two finite values whose exponents are not below
    Etiny: it overflows, or it is a finite value that is negative
    exactly when [a < b]. *)
Lemma sub_above_tiny (s1 s2 : bool) (c1 c2 e1 e2 : Z) :
  0 <= c1 -> 0 <= c2 -> Etiny <= e1 -> Etiny <= e2 ->
  let a := Finite s1 c1 e1 in
  let b := Finite s2 c2 e2 in
  __sub__ a b = Trap Overflow \/
  exists d, __sub__ a b = Done d /\
    __lt__ d zero = Done (match _cmp a b with Lt => true | _ => false end).
Proof.
  intros H1 H2 E1 E2 a b. unfold a, b.
  rewrite cmp_finite by assumption.
  unfold __sub__, copy_negate, __add__.
  set (e := Z.min e1 e2).
  assert (Hs2 : signed (negb s2) (c2 * 10 ^ (e2 - e))
                = - signed s2 (c2 * 10 ^ (e2 - e)))
    by (destruct s2; cbn; lia).
  rewrite Hs2.
  set (x := signed s1 (c1 * 10 ^ (e1 - e))).
  set (y := signed s2 (c2 * 10 ^ (e2 - e))).
  assert (P1 : 0 < 10 ^ (e1 - e)) by (apply Z.pow_pos_nonneg; lia).
  assert (P2 : 0 < 10 ^ (e2 - e)) by (apply Z.pow_pos_nonneg; lia).
  destruct ((c1 =? 0) && (c2 =? 0)) eqn:Z0.
  { apply andb_true_iff in Z0 as [->%Z.eqb_eq ->%Z.eqb_eq].
    right. eexists. split; [reflexivity|].
    rewrite lt_zero_finite. cbn [Z.eqb negb]. rewrite andb_false_r.
    unfold x, y. destruct s1, s2; reflexivity. }
  destruct (Z.eqb_spec (x + - y) 0) as [Ev|Nv].
  { right. eexists. split; [reflexivity|].
    rewrite lt_zero_finite. cbn [andb].
    replace y with x by lia. rewrite Z.compare_refl. reflexivity. }
  assert (He : Etiny <= e) by (unfold e; lia).
  destruct (fix_above_tiny (x + - y <? 0) (Z.abs (x + - y)) e ltac:(lia) He)
    as [(c' & e' & -> & Hc')|[-> _]]; [|left; reflexivity].
  right. eexists. split; [reflexivity|].
  rewrite lt_zero_finite.
  destruct (Z.eqb_spec c' 0) as [|_]; [lia|]. cbn [negb]. rewrite andb_true_r.
  destruct (Z.compare_spec x y); destruct (Z.ltb_spec (x + - y) 0);
    try reflexivity; lia.
Qed.

(** Below [10 ^ Emax] two values that are not negative have a
    difference that does not overflow. *)
Lemma sub_in_range (s1 s2 : bool) (c1 c2 e1 e2 : Z) :
  0 <= c1 -> 0 <= c2 -> Etiny <= e1 -> Etiny <= e2 ->
  Dec.ndigits c1 + e1 <= Emax -> Dec.ndigits c2 + e2 <= Emax ->
  nonneg (Finite s1 c1 e1) -> nonneg (Finite s2 c2 e2) ->
  __sub__ (Finite s1 c1 e1) (Finite s2 c2 e2) <> Trap Overflow.
Proof.
  intros H1 H2 E1 E2 R1 R2. unfold nonneg. rewrite !lt_zero_finite.
  intros [= N1] [= N2].
  unfold __sub__, copy_negate, __add__.
  set (e := Z.min e1 e2).
  destruct ((c1 =? 0) && (c2 =? 0)); [discriminate|].
  assert (P1 : 0 < 10 ^ (e1 - e)) by (apply Z.pow_pos_nonneg; lia).
  assert (P2 : 0 < 10 ^ (e2 - e)) by (apply Z.pow_pos_nonneg; lia).
  assert (B : forall c f, 0 <= c -> e <= f -> Dec.ndigits c + f <= Emax ->
                c * 10 ^ (f - e) < 10 ^ (Emax - e)).
  { intros c f Hc Hf Hr.
    assert (0 < 10 ^ (f - e)) by (apply Z.pow_pos_nonneg; lia).
    destruct (Z.eq_dec c 0) as [->|Hn].
    - change (Dec.ndigits 0) with 0 in Hr.
      rewrite Z.mul_0_l. apply Z.pow_pos_nonneg; lia.
    - pose proof (ndigits_upper c ltac:(lia)) as Hu.
      destruct (DecFacts.ndigits_lower c Hn) as [Hl _].
      apply Z.lt_le_trans with (10 ^ Dec.ndigits c * 10 ^ (f - e)); [nia|].
      rewrite <- Z.pow_add_r by lia. apply Z.pow_le_mono_r; lia. }
  pose proof (B c1 e1 H1 ltac:(unfold e; lia) R1) as B1.
  pose proof (B c2 e2 H2 ltac:(unfold e; lia) R2) as B2.
  assert (X : signed s1 (c1 * 10 ^ (e1 - e)) = c1 * 10 ^ (e1 - e)).
  { destruct s1; cbn [signed]; [|reflexivity].
    destruct (Z.eqb_spec c1 0) as [->|]; [reflexivity|discriminate]. }
  assert (Y : signed (negb s2) (c2 * 10 ^ (e2 - e)) = - (c2 * 10 ^ (e2 - e))).
  { destruct s2; cbn [signed negb]; [|reflexivity].
    destruct (Z.eqb_spec c2 0) as [->|]; [reflexivity|discriminate]. }
  rewrite X, Y.
  set (v := c1 * 10 ^ (e1 - e) + - (c2 * 10 ^ (e2 - e))).
  destruct (Z.eqb_spec v 0) as [|Nv]; [discriminate|].
  assert (He : Etiny <= e) by (unfold e; lia).
  destruct (fix_above_tiny (v <? 0) (Z.abs v) e ltac:(lia) He)
    as [(c' & e' & -> & _)|[_ Hbig]]; [discriminate|].
  exfalso.
  destruct (DecFacts.ndigits_lower (Z.abs v) ltac:(lia)) as [Hl Hlow].
  rewrite Z.abs_idemp in Hlow.
  assert (Hv : Z.abs v < 10 ^ (Emax - e)) by (unfold v; nia).
  pose proof (ndigits_nonneg c1).
  assert (Dec.ndigits (Z.abs v) - 1 < Emax - e).
  { apply (Z.pow_lt_mono_r_iff 10); [lia | unfold e; lia | lia]. }
  lia.
Qed.

(** What is not below zero: a finite value that is zero or carries no
    minus sign, and Infinity; no NaN. *)
Lemma nonneg_cases (d : t) :
  nonneg d <-> match d with
               | Finite s c _ => s = false \/ c = 0
               | Infinity s => s = false
               | NaN _ => False
               end.
Proof.
  unfold nonneg. destruct d as [s c e|s|s].
  - rewrite lt_zero_finite.
    destruct s, (Z.eqb_spec c 0); cbn; split; intros H;
      try reflexivity; try discriminate; auto; destruct H; congruence.
  - destruct s; cbn; split; intros H; congruence.
  - cbn. split; [discriminate|contradiction].
Qed.

(** The only signal of [_fix] is Overflow. *)
Lemma fix_trap (s : bool) (c e : Z) (x : signal) :
  _fix s c e = Trap x -> x = Overflow.
Proof.
  unfold _fix.
  repeat match goal with
         | |- context [if ?b then _ else _] => destruct b
         end; intros [=]; congruence.
Qed.

End PyDecFacts.

(** ** Money *)

(** C10 (amended).  A [Money] is constructed exactly when its amount is
    not below zero: a finite amount that is zero or has no minus sign,
    or Infinity, and no NaN; the value constructed carries that amount.
    Whatever [+], [-] and [*] return is again not below zero.  For two
    values of one currency whose amounts are finite, with exponents not
    below Etiny and values below [10 ^ Emax], [a - b] succeeds exactly
    when [a.amount >= b.amount].  For two values of different
    currencies, [+], [-], [<] and [>] all raise. *)
Theorem Money_invariant_within_limits (a b : PyMoney.t) (k amt : PyDecimal.t)
    (cur : string) :
  (is_ok (PyMoney.new amt cur) = true <-> PyDecimal.nonneg amt) /\
  (PyDecimal.nonneg amt <->
   match amt with
   | PyDecimal.Finite s c _ => s = false \/ c = 0
   | PyDecimal.Infinity s => s = false
   | PyDecimal.NaN _ => False
   end) /\
  (forall m, PyMoney.new amt cur = Ok m -> m = PyMoney.mk amt cur) /\
  (forall m, PyMoney.__add__ a b = Ok m \/ PyMoney.__sub__ a b = Ok m \/
             PyMoney.__mul__ a k = Ok m ->
     PyDecimal.nonneg (PyMoney.amount m)) /\
  (PyMoney.currency a = PyMoney.currency b ->
   PyDecimal.in_range (PyMoney.amount a) ->
   PyDecimal.in_range (PyMoney.amount b) ->
   PyDecimal.nonneg (PyMoney.amount a) ->
   PyDecimal.nonneg (PyMoney.amount b) ->
   (is_ok (PyMoney.__sub__ a b) = true <->
    PyDecimal.__ge__ (PyMoney.amount a) (PyMoney.amount b)
    = PyDecimal.Done true)) /\
  (PyMoney.currency a <> PyMoney.currency b ->
     is_ok (PyMoney.__add__ a b) = false /\
     is_ok (PyMoney.__sub__ a b) = false /\
     is_ok (PyMoney.__lt__ a b) = false /\
     is_ok (PyMoney.__gt__ a b) = false).
Proof.
  assert (Hnew : forall x c m, PyMoney.new x c = Ok m ->
                   PyDecimal.nonneg x /\ m = PyMoney.mk x c).
  { intros x c m. unfold PyMoney.new, PyDecimal.nonneg.
    destruct (PyDecimal.__lt__ x PyDecimal.zero) as [[|]|]; try discriminate.
    intros [= <-]. split; reflexivity. }
  split; [|split; [|split; [|split; [|split]]]].
  - unfold PyMoney.new, PyDecimal.nonneg.
    destruct (PyDecimal.__lt__ amt PyDecimal.zero) as [[|]|]; cbn;
      split; congruence.
  - apply PyDecFacts.nonneg_cases.
  - intros m H. apply (Hnew _ _ _ H).
  - intros m [H | [H | H]]; revert H;
      unfold PyMoney.__add__, PyMoney.__sub__, PyMoney.__mul__;
      try (destruct (negb _); [discriminate|]);
      match goal with
      | |- context [match ?op with PyDecimal.Done _ => _
                                 | PyDecimal.Trap _ => _ end] =>
          destruct op as [d|]; [|discriminate]
      end;
      intros H; destruct (Hnew _ _ _ H) as [Hn ->]; exact Hn.
  - intros Hc Ra Rb Na Nb. unfold PyMoney.__sub__.
    rewrite Hc, String.eqb_refl. cbn [negb].
    destruct (PyMoney.amount a) as [s1 c1 e1| |]; try contradiction.
    destruct (PyMoney.amount b) as [s2 c2 e2| |]; try contradiction.
    destruct Ra as (H1 & E1 & R1). destruct Rb as (H2 & E2 & R2).
    pose proof (PyDecFacts.sub_in_range s1 s2 c1 c2 e1 e2
                  H1 H2 E1 E2 R1 R2 Na Nb) as Hno.
    destruct (PyDecFacts.sub_above_tiny s1 s2 c1 c2 e1 e2 H1 H2 E1 E2)
      as [Hov | (d & Hd & Hlt)]; [contradiction|].
    rewrite Hd. unfold PyMoney.new. rewrite Hlt.
    unfold PyDecimal.__ge__. cbn [PyDecimal.is_nan orb].
    destruct (PyDecimal._cmp _ _); cbn; split; congruence.
  - intros Hc. apply String.eqb_neq in Hc.
    unfold PyMoney.__add__, PyMoney.__sub__, PyMoney.__lt__, PyMoney.__gt__.
    rewrite Hc. repeat split; reflexivity.
Qed.

(** C10 at 10.00 RUB and 3.00 RUB, in both orders, and at 10.00 RUB and
    3.00 USD. *)
Lemma Money_invariant_within_limits_witness :
  let ten := PyMoney.mk (PyDecimal.Finite false 1000 (-2)) "RUB" in
  let three := PyMoney.mk (PyDecimal.Finite false 300 (-2)) "RUB" in
  let dollars := PyMoney.mk (PyDecimal.Finite false 300 (-2)) "USD" in
  is_ok (PyMoney.__sub__ ten three) = true /\
  is_ok (PyMoney.__sub__ three ten) = false /\
  is_ok (PyMoney.__add__ ten dollars) = false.
Proof.
  intros ten three dollars.
  assert (R10 : PyDecimal.in_range (PyMoney.amount ten))
    by (repeat split; vm_compute; discriminate).
  assert (R3 : PyDecimal.in_range (PyMoney.amount three))
    by (repeat split; vm_compute; discriminate).
  pose proof (Money_invariant_within_limits ten three PyDecimal.zero
                PyDecimal.zero "RUB") as (_ & _ & _ & _ & H1 & _).
  pose proof (Money_invariant_within_limits three ten PyDecimal.zero
                PyDecimal.zero "RUB") as (_ & _ & _ & _ & H2 & _).
  pose proof (Money_invariant_within_limits ten dollars PyDecimal.zero
                PyDecimal.zero "RUB") as (_ & _ & _ & _ & _ & H3).
  split; [|split].
  - apply H1; try reflexivity; assumption.
  - destruct (is_ok (PyMoney.__sub__ three ten)) eqn:E; [|reflexivity].
    assert (G : PyDecimal.__ge__ (PyMoney.amount three) (PyMoney.amount ten)
                = PyDecimal.Done true)
      by (apply H2; try reflexivity; assumption).
    vm_compute in G. discriminate.
  - apply H3. cbn. discriminate.
Defined.

(** C10 as stated fails outside those limits.  [Money(Infinity)] is
    constructed, and [Infinity - Infinity] raises InvalidOperation though
    the amounts are equal.  [Money(5E+2000000)] is constructed, and taking
    a zero of that exponent from it raises Overflow.  And
    [1E-2000000 - 2E-2000000] is rounded to [-0E-1000026], which is not
    below zero: the subtraction succeeds though the first amount is the
    smaller. *)
Lemma Money_sub_counterexample :
  let inf := PyDecimal.Infinity false in
  let big := PyDecimal.Finite false 5 2000000 in
  let nought := PyDecimal.Finite false 0 2000000 in
  let one := PyDecimal.Finite false 1 (-2000000) in
  let two := PyDecimal.Finite false 2 (-2000000) in
  (PyMoney.new inf "RUB" = Ok (PyMoney.mk inf "RUB") /\
   PyDecimal.__ge__ inf inf = PyDecimal.Done true /\
   PyDecimal.__sub__ inf inf = PyDecimal.Trap PyDecimal.InvalidOperation /\
   is_ok (PyMoney.__sub__ (PyMoney.mk inf "RUB") (PyMoney.mk inf "RUB"))
   = false) /\
  (PyMoney.new big "RUB" = Ok (PyMoney.mk big "RUB") /\
   PyMoney.new nought "RUB" = Ok (PyMoney.mk nought "RUB") /\
   PyDecimal.__ge__ big nought = PyDecimal.Done true /\
   PyDecimal.__sub__ big nought = PyDecimal.Trap PyDecimal.Overflow /\
   is_ok (PyMoney.__sub__ (PyMoney.mk big "RUB") (PyMoney.mk nought "RUB"))
   = false) /\
  (PyMoney.new one "RUB" = Ok (PyMoney.mk one "RUB") /\
   PyMoney.new two "RUB" = Ok (PyMoney.mk two "RUB") /\
   PyDecimal.__ge__ one two = PyDecimal.Done false /\
   PyMoney.__sub__ (PyMoney.mk one "RUB") (PyMoney.mk two "RUB")
   = Ok (PyMoney.mk (PyDecimal.Finite true 0 (-1000026)) "RUB")).
Proof. cbv zeta. repeat split; vm_compute; reflexivity. Qed.

(** ** The prorated amount of an upgrade *)





(** ** The idempotency key of the gateway *)

(** C1 (amended).  The key a charge request carries is the rendering of
    the clock at the moment its headers are built, whatever the gateway,
    the amount, the payment method and the customer; two requests built
    at one clock reading carry one key, whatever they charge. *)
Theorem idempotence_key_is_clock (gw gw' : Gateway.YooMoneyGateway)
    (t : datetime) (amount amount' : Money.t)
    (pm customer pm' customer' : string) :
  Gateway.idempotence_key (Gateway.charge_request gw t amount pm customer)
  = Some (Gateway.str_timestamp t) /\
  Gateway.idempotence_key (Gateway.charge_request gw t amount pm customer)
  = Gateway.idempotence_key (Gateway.charge_request gw' t amount' pm' customer').
Proof. split; reflexivity. Qed.

(** C1 as stated fails for one charge submitted twice, a second apart:
    the two requests have the same body and different keys. *)
Lemma idempotence_key_counterexample :
  let gw := Gateway.__init__ "shop" "secret" false in
  let amount := Money.mk (Dec.cents 100000) "RUB" in
  Gateway.body (Gateway.charge_request gw 1730642400000000 amount "pm_1" "user_1")
  = Gateway.body (Gateway.charge_request gw 1730642401000000 amount "pm_1" "user_1") /\
  Gateway.idempotence_key
    (Gateway.charge_request gw 1730642400000000 amount "pm_1" "user_1")
  = Some "1730642400.0" /\
  Gateway.idempotence_key
    (Gateway.charge_request gw 1730642401000000 amount "pm_1" "user_1")
  = Some "1730642401.0" /\
  Gateway.idempotence_key
    (Gateway.charge_request gw 1730642400000000 amount "pm_1" "user_1")
  <> Gateway.idempotence_key
       (Gateway.charge_request gw 1730642401000000 amount "pm_1" "user_1").
Proof.
  cbv zeta. split; [reflexivity|]. split; [vm_compute; reflexivity|].
  split; [vm_compute; reflexivity|]. vm_compute. discriminate.
Qed.

(** ** The scheduler's next run *)

(** After a completed run of a recurring task, [next_run] is [last_run]
    plus one unit of the task's resolution: a second, a minute, an hour
    or a day, whatever the interval it was scheduled with. *)
Lemma next_run_after_interval_run (task_id : string) (t0 t_done t_calc : datetime)
    (d : timedelta) (s : Scheduler.TaskScheduler) :
  let s0 := Scheduler.schedule_recurring_task task_id t0 d s in
  let unit :=
    if d <? seconds 60 then "seconds"
    else if d <? seconds 3600 then "minutes"
    else if d <? seconds 86400 then "hours" else "days" in
  Scheduler.tasks s0 !! task_id
  = Some (Scheduler.mkTask task_id unit (Scheduler.Interval d) None
            (Some (t0 + d)) true) /\
  Scheduler.tasks (Scheduler._wrap_task task_id true t_done t_calc s0) !! task_id
  = Some (Scheduler.mkTask task_id unit (Scheduler.Interval d) (Some t_done)
            (Some (t_done + Scheduler.interval_map unit)) true).
Proof.
  cbv zeta. unfold Scheduler.schedule_recurring_task, Scheduler._wrap_task,
    Scheduler._should_run_task.
  destruct (d <? seconds 60); [|destruct (d <? seconds 3600);
    [|destruct (d <? seconds 86400)]];
    cbn [Scheduler.tasks Scheduler.jobs]; rewrite !lookup_insert_eq;
    cbn; rewrite lookup_insert_eq; split; reflexivity.
Qed.

(** C9 (the code departs from the claim).  A task scheduled every five
    minutes at time 0 is handed to the library as a job for every 5
    minutes and first shows [next_run] = 0 + 5 minutes; after its run
    completes at minute 5, [next_run] is [last_run] plus one minute,
    not plus five. *)
Theorem next_run_adds_one_unit :
  let s0 :=
    Scheduler.schedule_recurring_task "job" 0 (minutes 5) Scheduler.__init__ in
  let s1 := Scheduler._wrap_task "job" true (minutes 5) (minutes 5) s0 in
  Scheduler.jobs s0 = [Scheduler.mkJob 5000000 "minutes" "job"] /\
  (Scheduler.next_run <$> Scheduler.tasks s0 !! "job")
  = Some (Some (0 + minutes 5)) /\
  (Scheduler.last_run <$> Scheduler.tasks s1 !! "job")
  = Some (Some (minutes 5)) /\
  (Scheduler.next_run <$> Scheduler.tasks s1 !! "job")
  = Some (Some (minutes 5 + minutes 1)) /\
  minutes 5 + minutes 1 <> minutes 5 + minutes 5.
Proof.
  cbv zeta. repeat split; try (vm_compute; reflexivity).
  vm_compute. discriminate.
Qed.

(** ** Creating a subscription *)




(** The guard of [create_subscription] fires exactly when the query
    finds a subscription of the user. *)
Lemma create_rejected_iff (h : UUID -> World -> option Subscription)
    (w : World) (u p : UUID) (pm : string) (promo : option string) :
  fst (Lifecycle.create_subscription h u p pm promo w) = Raise already_active
  <-> is_Some (h u w).
Proof.
  split.
  - destruct (h u w) as [s|] eqn:Hh; [eauto|].
    intros H. exfalso. revert H.
    unfold Lifecycle.create_subscription, get_plan, process_payment,
      Lifecycle._create_subscription_record,
      Lifecycle._send_subscription_created_notifications.
    run. rewrite Hh. cbn.
    destruct (plans w !! p) as [plan|] eqn:Hp; cbn; [|discriminate].
    destruct (plan_is_active plan); cbn; [|discriminate].
    destruct (0 <? trial_period_days plan); cbn.
    + rewrite Hp. cbn. discriminate.
    + destruct (charge_outcome w u _ pm); cbn; try discriminate.
      rewrite Hp. cbn. discriminate.
  - intros [s Hs]. unfold Lifecycle.create_subscription. run.
    rewrite Hs. reflexivity.
Qed.

(** C4 (amended).  [create_subscription] raises "User already has an
    active subscription" exactly when the query it makes with the user
    alone finds a subscription; it then raises for every plan and
    changes nothing.  The plan asked for plays no part in the check. *)
Theorem create_rejects_per_user (h : UUID -> World -> option Subscription)
    (w : World) (u p : UUID) (pm : string) (promo : option string) :
  (fst (Lifecycle.create_subscription h u p pm promo w) = Raise already_active
   <-> is_Some (h u w)) /\
  (is_Some (h u w) ->
   forall p', Lifecycle.create_subscription h u p' pm promo w
              = (Raise already_active, w)).
Proof.
  split; [apply create_rejected_iff|].
  intros [s Hs] p'. unfold Lifecycle.create_subscription. run.
  rewrite Hs. reflexivity.
Qed.

(** C4 for user 7, active on Pro, asking for Basic. *)
Lemma create_rejects_per_user_witness :
  Lifecycle.create_subscription Lifecycle.find_active_subscription
    7%N 1%N "pm" None w_on_pro = (Raise already_active, w_on_pro).
Proof.
  apply (proj2 (create_rejects_per_user Lifecycle.find_active_subscription
                  w_on_pro 7%N 2%N "pm" None)).
  vm_compute. eauto.
Defined.

(** C4 as stated fails for a subscription on another plan: user 7 has
    no subscription on Basic and one active on Pro, and the creation on
    Basic is rejected.  Whatever the query does with the user, it
    rejects Basic exactly when it rejects Pro. *)
Lemma create_other_plan_counterexample :
  List.find (fun s => (user_id s =? 7)%N && (sub_plan_id s =? 1)%N)
            (snd <$> map_to_list (subscriptions w_on_pro)) = None /\
  fst (Lifecycle.create_subscription Lifecycle.find_active_subscription
         7%N 1%N "pm" None w_on_pro) = Raise already_active /\
  forall h : UUID -> World -> option Subscription,
    fst (Lifecycle.create_subscription h 7%N 1%N "pm" None w_on_pro)
    = Raise already_active
    <-> fst (Lifecycle.create_subscription h 7%N 2%N "pm" None w_on_pro)
        = Raise already_active.
Proof.
  split; [vm_compute; reflexivity|]. split; [vm_compute; reflexivity|].
  intros h. rewrite !create_rejected_iff. reflexivity.
Qed.

(** ** Upgrading a subscription *)

(** What a successful upgrade went through and left behind. *)
Lemma upgrade_ok_inv (sid b : UUID) (w w' : World) (r : Lifecycle.UpgradeResult) :
  Lifecycle.upgrade_subscription sid b w = (Ok r, w') ->
  exists sub A B,
    subscriptions w !! sid = Some sub /\
    plans w !! sub_plan_id sub = Some A /\
    plans w !! b = Some B /\
    Dec.leb (price B) (price A) = false /\
    plans w' = plans w /\
    subscriptions w'
    = <[sub_id sub := set_retry_count 0 (set_sub_plan_id b sub)]>
        (subscriptions w).
Proof.
  unfold Lifecycle.upgrade_subscription, Lifecycle._get_subscription, get_plan,
    Lifecycle._validate_upgrade, Lifecycle._calculate_prorated_amount,
    Lifecycle._update_subscription_plan, process_payment.
  run.
  destruct (subscriptions w !! sid) as [sub|] eqn:Hs; cbn; [|discriminate].
  destruct (plans w !! sub_plan_id sub) as [A|] eqn:HA; cbn; [|discriminate].
  destruct (plans w !! b) as [B|] eqn:HB; cbn; [|discriminate].
  destruct (plan_is_active B); cbn; [|discriminate].
  destruct (Dec.leb (price B) (price A)) eqn:Hle; cbn; [discriminate|].
  destruct (Lifecycle.prorate _ _ _ _ _) as [amt|]; cbn; [|discriminate].
  destruct (Dec.ltb Dec.zero amt); cbn.
  - destruct (charge_outcome w _ _ _); cbn; try discriminate.
    intros [= <- <-]. exists sub, A, B. cbn. auto 10.
  - intros [= <- <-]. exists sub, A, B. cbn. auto 10.
Qed.

(** The price test of [upgrade_subscription], the half of C5 that the
    code keeps.  For a stored subscription whose plan and whose new
    plan exist: when the new plan is active and its price is not above
    the current one, [upgrade_subscription] raises "New plan must be
    more expensive for upgrade" and changes nothing: no plan change, no
    charge.  And after an upgrade that succeeded, the upgrade back to
    the former plan raises and changes nothing. *)
Lemma upgrade_requires_higher_price (w : World) (sid npid : UUID)
    (sub : Subscription) (current new : SubscriptionPlan) :
  subscriptions w !! sid = Some sub ->
  plans w !! sub_plan_id sub = Some current ->
  plans w !! npid = Some new ->
  (plan_is_active new = true ->
   Dec.leb (price new) (price current) = true ->
   Lifecycle.upgrade_subscription sid npid w = (Raise invalid_upgrade, w)) /\
  (forall r w',
     Lifecycle.upgrade_subscription sid npid w = (Ok r, w') ->
     exists e, Lifecycle.upgrade_subscription sid (sub_plan_id sub) w'
               = (Raise e, w')).
Proof.
  intros Hs Hcur Hnew. split.
  - intros Hact Hle.
    unfold Lifecycle.upgrade_subscription, Lifecycle._get_subscription,
      get_plan, Lifecycle._validate_upgrade.
    run. rewrite Hs. cbn. rewrite Hcur. cbn. rewrite Hnew. cbn.
    rewrite Hact. cbn. rewrite Hle. reflexivity.
  - intros r w' Hok.
    destruct (upgrade_ok_inv _ _ _ _ _ Hok)
      as (sub' & A & B & Hs' & HA & HB & Hlt & Hplans & Hsubs).
    rewrite Hs in Hs'. injection Hs' as <-.
    rewrite Hcur in HA. injection HA as <-.
    rewrite Hnew in HB. injection HB as <-.
    unfold Lifecycle.upgrade_subscription, Lifecycle._get_subscription,
      get_plan, Lifecycle._validate_upgrade.
    run. rewrite Hsubs.
    destruct (decide (sub_id sub = sid)) as [<-|Hne].
    + rewrite lookup_insert_eq. cbn. rewrite Hplans, Hnew. cbn.
      rewrite Hplans, Hcur. cbn.
      destruct (plan_is_active current); cbn; [|eauto].
      rewrite (leb_total _ _ Hlt). eauto.
    + rewrite lookup_insert_ne by exact Hne. rewrite Hs. cbn.
      rewrite Hplans, Hcur. cbn. rewrite Hplans, Hcur. cbn.
      destruct (plan_is_active current); cbn; [|eauto].
      rewrite leb_refl. eauto.
Qed.

(** The price test for the subscription of user 7: from Pro down to
    Basic, and from Basic up to Pro and back. *)
Lemma upgrade_requires_higher_price_witness :
  Lifecycle.upgrade_subscription 5%N 1%N w_on_pro
  = (Raise invalid_upgrade, w_on_pro) /\
  exists e,
    Lifecycle.upgrade_subscription 5%N 1%N
      (snd (Lifecycle.upgrade_subscription 5%N 2%N w_on_basic))
    = (Raise e, snd (Lifecycle.upgrade_subscription 5%N 2%N w_on_basic)).
Proof.
  split.
  - apply (proj1 (upgrade_requires_higher_price w_on_pro 5%N 1%N on_pro pro
                    basic eq_refl eq_refl eq_refl)); reflexivity.
  - destruct (Lifecycle.upgrade_subscription 5%N 2%N w_on_basic)
      as [[r|e] w'] eqn:E.
    + exact (proj2 (upgrade_requires_higher_price w_on_basic 5%N 2%N on_basic
                      basic pro eq_refl eq_refl eq_refl) r w' E).
    + vm_compute in E. discriminate.
Defined.

(** [upgrade_subscription] never reads the status: with any status
    written over the stored one, the call returns the same result and
    sends the same charges and notifications. *)
Lemma upgrade_ignores_status (w : World) (sid npid : UUID)
    (sub : Subscription) (st : string) :
  subscriptions w !! sid = Some sub ->
  let w_st :=
    set_subscriptions (<[sid := set_status st sub]> (subscriptions w)) w in
  fst (Lifecycle.upgrade_subscription sid npid w_st)
  = fst (Lifecycle.upgrade_subscription sid npid w) /\
  events (snd (Lifecycle.upgrade_subscription sid npid w_st))
  = events (snd (Lifecycle.upgrade_subscription sid npid w)).
Proof.
  intros Hs w_st. unfold w_st.
  unfold Lifecycle.upgrade_subscription, Lifecycle._get_subscription, get_plan,
    Lifecycle._validate_upgrade, Lifecycle._calculate_prorated_amount,
    Lifecycle._update_subscription_plan, process_payment.
  run. rewrite lookup_insert_eq, Hs. cbn.
  destruct (plans w !! sub_plan_id sub) as [A|]; cbn; [|auto].
  destruct (plans w !! npid) as [B|]; cbn; [|auto].
  destruct (plan_is_active B); cbn; [|auto].
  destruct (Dec.leb (price B) (price A)); cbn; [auto|].
  destruct (Lifecycle.prorate _ _ _ _ _) as [amt|]; cbn; [|auto].
  destruct (Dec.ltb Dec.zero amt); cbn; [|auto].
  destruct (charge_outcome w _ _ _); cbn; auto.
Qed.

(** C5 (the code departs from the claim).  The subscription of user 7
    on Basic is cancelled; its upgrade to Pro is carried out as for the
    active one: the call succeeds with the same result, the prorated
    1666.67 is charged, and the plan is swapped. *)
Theorem upgrade_charges_cancelled :
  let out := Lifecycle.upgrade_subscription 5%N 2%N w_gone in
  (status <$> subscriptions w_gone !! 5%N) = Some "cancelled" /\
  (status <$> subscriptions w_on_basic !! 5%N) = Some "active" /\
  is_ok (fst out) = true /\
  fst out = fst (Lifecycle.upgrade_subscription 5%N 2%N w_on_basic) /\
  (sub_plan_id <$> subscriptions (snd out) !! 5%N) = Some 2%N /\
  (status <$> subscriptions (snd out) !! 5%N) = Some "cancelled" /\
  events (snd out)
  = [Charge 7%N (Dec.mk 1666666666666666666666666667 (-24)) "pm"
            "Upgrade from Basic to Pro";
     Notification 7%N "upgrade_completed"].
Proof. cbv zeta. repeat split; vm_compute; reflexivity. Qed.

(** ** Cancelling a subscription *)



(** ** The billing engine on a failed charge *)

(** [_handle_insufficient_funds] on a subscription whose plan is stored:
    the count goes up by one; at [max_retries] or above the subscription
    is cancelled and nothing is scheduled; below, a retry is scheduled
    at [now + 2 ^ (retry_count - 1)] days and the user is notified. *)
Lemma handle_insufficient_funds_step (w : World) (sub : Subscription)
    (plan : SubscriptionPlan) :
  plans w !! sub_plan_id sub = Some plan ->
  let counted := set_retry_count (retry_count sub + 1) sub in
  let w1 := set_subscriptions (<[sub_id sub := counted]> (subscriptions w)) w in
  Billing._handle_insufficient_funds sub w
  = if max_retries plan <=? retry_count sub + 1 then
      (Ok (Billing.mkResult (sub_id sub) false
             (Some "Subscription cancelled due to non-payment")
             None None None true None None),
       set_subscriptions
         (<[sub_id sub := set_status "cancelled" counted]> (subscriptions w1))
         w1)
    else
      let retry_date := now w + Billing.backoff 1 2 (retry_count sub) in
      (Ok (Billing.mkResult (sub_id sub) false (Some "Insufficient funds")
             None None None false (Some retry_date)
             (Some (retry_count sub + 1))),
       set_events (events w ++ [RetryScheduled (sub_id sub) retry_date;
                                Notification (user_id sub) "payment_failed"])
                  w1).
Proof.
  intros Hp. cbv zeta.
  unfold Billing._handle_insufficient_funds,
    Billing._cancel_subscription_for_non_payment, Billing._schedule_retry,
    Billing._send_payment_failed_notification.
  run. rewrite Hp. cbn.
  destruct (max_retries plan <=? retry_count sub + 1); cbn; [reflexivity|].
  replace (retry_count sub + 1 - 1) with (retry_count sub) by lia.
  rewrite <- app_assoc. reflexivity.
Qed.

(** C3 (the code departs from the claim).  A subscription on Pro, a
    plan with [max_retries = 7], fails its sixth charge for lack of
    funds at day 100: the retry is scheduled 32 days later, beyond the
    [max_delay] of 24 that [retry_config] declares. *)
Theorem retry_delay_not_capped :
  max_retries pro = 7 /\ retry_count late = 5 /\
  fst (Billing._handle_insufficient_funds late w_late)
  = Ok (Billing.mkResult 5%N false (Some "Insufficient funds") None None None
          false (Some (days 100 + days 32)) (Some 6)) /\
  events (snd (Billing._handle_insufficient_funds late w_late))
  = [RetryScheduled 5%N (days 100 + days 32);
     Notification 7%N "payment_failed"] /\
  days (Billing.max_delay Billing.retry_config) < days 32.
Proof. repeat split; vm_compute; reflexivity. Qed.

(** Every subscription of a batch gets its result. *)
Lemma collect_total (subs : list Subscription) : forall w,
  exists rs, fst (Billing.collect subs w) = Ok rs /\ length rs = length subs.
Proof.
  induction subs as [|s rest IH]; intros w; cbn [Billing.collect].
  - exists []. split; reflexivity.
  - destruct (Billing._process_subscription_payment s w) as [[r|e] w1];
      cbn; match goal with |- context [Billing.collect rest ?w2] =>
        destruct (IH w2) as (rs & Hrs & Hlen);
        destruct (Billing.collect rest w2) as [[rs'|e'] w3]; cbn in *;
        [injection Hrs as ->; eexists; split; [reflexivity | cbn; lia]
        | discriminate] end.
Qed.

(** C7 (amended).  [_handle_payment_error] sends the admin alert,
    returns a failure and does nothing else: the subscriptions, hence
    every [retry_count], stay as they were and no retry is scheduled.
    When the gateway fails the charge of a subscription,
    [_process_subscription_payment] returns that failure, leaves the
    subscriptions untouched, and the only calls made are the charge and
    the alert.  A batch yields one result per subscription. *)
Theorem gateway_error_no_retry (w : World) (sub : Subscription)
    (plan : SubscriptionPlan) (msg : string) (subs : list Subscription) :
  let alert :=
    AdminAlert "payment_gateway_error" (sub_id sub) (user_id sub) msg in
  let report :=
    Billing.failure (sub_id sub) ("Payment gateway error: " +:+ msg) in
  Billing._handle_payment_error sub msg w
  = (Ok report, set_events (events w ++ [alert]) w) /\
  (plans w !! sub_plan_id sub = Some plan ->
   charge_outcome w (user_id sub) (price plan) (payment_method_id sub)
   = GatewayFailure msg ->
   let out := Billing._process_subscription_payment sub w in
   fst out = Ok report /\
   subscriptions (snd out) = subscriptions w /\
   events (snd out)
   = events w ++ [Charge (user_id sub) (price plan) (payment_method_id sub)
                         ("Auto-renewal of " +:+ name plan); alert]) /\
  (exists rs, fst (Billing.collect subs w) = Ok rs /\ length rs = length subs).
Proof.
  cbv zeta. split; [|split].
  - unfold Billing._handle_payment_error, Billing._send_admin_alert. run.
    reflexivity.
  - intros Hp Hout.
    unfold Billing._process_subscription_payment, Billing.charge_and_extend,
      process_payment, Billing._handle_payment_error, Billing._send_admin_alert.
    run. rewrite Hp. cbn. rewrite Hout. cbn.
    rewrite <- app_assoc. repeat split; reflexivity.
  - apply collect_total.
Qed.

(** C7 for the subscription of user 7 when the gateway times out. *)
Lemma gateway_error_no_retry_witness :
  fst (Billing._process_subscription_payment late w_down)
  = Ok (Billing.failure 5%N "Payment gateway error: timeout") /\
  subscriptions (snd (Billing._process_subscription_payment late w_down))
  = subscriptions w_down.
Proof.
  destruct (proj1 (proj2 (gateway_error_no_retry w_down late pro "timeout" []))
              eq_refl eq_refl) as (H1 & H2 & _).
  split; [exact H1 | exact H2].
Defined.

(** C7 as stated fails on the retry: the billing run over the one due
    subscription, with the gateway timing out, charges, alerts the
    administrators and schedules nothing, in particular no retry an
    hour later. *)
Lemma gateway_error_retry_counterexample :
  let out := Billing.process_recurring_payments w_down in
  fst out = Ok [Billing.failure 5%N "Payment gateway error: timeout"] /\
  events (snd out)
  = [Charge 7%N (Dec.cents 300000) "pm" "Auto-renewal of Pro";
     AdminAlert "payment_gateway_error" 5%N 7%N "timeout"] /\
  ~ In (RetryScheduled 5%N (now w_down + hours 1)) (events (snd out)).
Proof.
  cbv zeta. split; [vm_compute; reflexivity|]. split; [vm_compute; reflexivity|].
  vm_compute. intros [H|[H|[]]]; discriminate.
Qed.

(** * Further properties of the code *)

(** ** More on Money *)

(** X1.  Two [Money] values of one currency whose amounts are not below
    zero: their sum is again a [Money], carrying the sum that [Decimal]
    computes, unless that addition overflows; nothing else makes [+]
    fail.  The order of the operands does not matter. *)
Theorem Money_add_succeeds (a b : PyMoney.t) :
  PyDecimal.wf (PyMoney.amount a) -> PyDecimal.wf (PyMoney.amount b) ->
  PyDecimal.nonneg (PyMoney.amount a) -> PyDecimal.nonneg (PyMoney.amount b) ->
  PyMoney.currency a = PyMoney.currency b ->
  ((exists d, PyDecimal.__add__ (PyMoney.amount a) (PyMoney.amount b)
              = PyDecimal.Done d /\
              PyMoney.__add__ a b = Ok (PyMoney.mk d (PyMoney.currency a))) \/
   (PyDecimal.__add__ (PyMoney.amount a) (PyMoney.amount b)
    = PyDecimal.Trap PyDecimal.Overflow /\
    PyMoney.__add__ a b = Raise DecimalError)) /\
  PyMoney.__add__ b a = PyMoney.__add__ a b.
Proof.
  intros Wa Wb Na Nb Hc.
  assert (Hcomm : PyDecimal.__add__ (PyMoney.amount b) (PyMoney.amount a)
                  = PyDecimal.__add__ (PyMoney.amount a) (PyMoney.amount b)).
  { unfold PyDecimal.nonneg in Na, Nb.
    destruct (PyMoney.amount a) as [s1 c1 e1|[|]|[|]];
      destruct (PyMoney.amount b) as [s2 c2 e2|[|]|[|]];
      try discriminate; try reflexivity.
    unfold PyDecimal.__add__.
    rewrite (Z.min_comm e2 e1), (andb_comm (c2 =? 0)), (andb_comm s2),
      (Z.add_comm (PyDecimal.signed s2 _)). reflexivity. }
  split.
  2:{ unfold PyMoney.__add__. rewrite Hcomm, <- Hc, String.eqb_refl.
      reflexivity. }
  unfold PyMoney.__add__. rewrite Hc, String.eqb_refl. cbn [negb].
  assert (Hpass : forall d, PyDecimal.nonneg d ->
            PyMoney.new d (PyMoney.currency b)
            = Ok (PyMoney.mk d (PyMoney.currency b))).
  { intros d Hd. unfold PyMoney.new. rewrite Hd. reflexivity. }
  assert (Hsum : forall d, PyDecimal.__add__ (PyMoney.amount a)
                             (PyMoney.amount b) = PyDecimal.Done d ->
                 PyDecimal.nonneg d).
  { unfold PyDecimal.nonneg in *.
    destruct (PyMoney.amount a) as [s1 c1 e1|[|]|[|]];
      destruct (PyMoney.amount b) as [s2 c2 e2|[|]|[|]];
      try discriminate; cbn [PyDecimal.__add__ Bool.eqb];
      try (intros d [= <-]; reflexivity).
    rewrite PyDecFacts.lt_zero_finite in Na, Nb.
    cbn [PyDecimal.wf] in Wa, Wb.
    injection Na as Na. injection Nb as Nb.
    set (e := Z.min e1 e2).
    assert (P1 : 0 < 10 ^ (e1 - e)) by (apply Z.pow_pos_nonneg; lia).
    assert (P2 : 0 < 10 ^ (e2 - e)) by (apply Z.pow_pos_nonneg; lia).
    assert (X : PyDecimal.signed s1 (c1 * 10 ^ (e1 - e)) = c1 * 10 ^ (e1 - e)).
    { destruct s1; cbn [PyDecimal.signed]; [|reflexivity].
      destruct (Z.eqb_spec c1 0) as [->|]; [reflexivity|discriminate]. }
    assert (Y : PyDecimal.signed s2 (c2 * 10 ^ (e2 - e)) = c2 * 10 ^ (e2 - e)).
    { destruct s2; cbn [PyDecimal.signed]; [|reflexivity].
      destruct (Z.eqb_spec c2 0) as [->|]; [reflexivity|discriminate]. }
    rewrite X, Y.
    assert (Hv : 0 <= c1 * 10 ^ (e1 - e) + c2 * 10 ^ (e2 - e)) by nia.
    set (v := c1 * 10 ^ (e1 - e) + c2 * 10 ^ (e2 - e)) in *.
    intros d.
    assert (Hz : forall s, PyDecimal._fix s 0 e = PyDecimal.Done d ->
                 PyDecimal.__lt__ d PyDecimal.zero = PyDecimal.Done false).
    { intros s. unfold PyDecimal._fix. cbn [Z.eqb]. intros [= <-].
      rewrite PyDecFacts.lt_zero_finite. cbn. apply f_equal, andb_false_r. }
    destruct ((c1 =? 0) && (c2 =? 0)); [apply Hz|].
    destruct (v =? 0); [apply Hz|].
    destruct (Z.ltb_spec v 0) as [|_]; [lia|].
    intros Hd.
    apply PyDecFacts.fix_shape in Hd as (c' & e' & -> & Hc'); [|lia].
    rewrite PyDecFacts.lt_zero_finite. reflexivity. }
  destruct (PyDecimal.__add__ (PyMoney.amount a) (PyMoney.amount b))
    as [d|x] eqn:E.
  - left. exists d. split; [reflexivity|]. apply Hpass, Hsum. reflexivity.
  - right. split; [|reflexivity]. f_equal.
    unfold PyDecimal.nonneg in Na, Nb.
    destruct (PyMoney.amount a) as [s1 c1 e1|[|]|[|]];
      destruct (PyMoney.amount b) as [s2 c2 e2|[|]|[|]];
      try discriminate.
    unfold PyDecimal.__add__ in E.
    repeat match type of E with
           | context [if ?c then _ else _] => destruct c
           end; apply PyDecFacts.fix_trap in E; exact E.
Qed.

(** X1 at 10.00 RUB and 3.00 RUB. *)
Lemma Money_add_succeeds_witness :
  let ten := PyMoney.mk (PyDecimal.Finite false 1000 (-2)) "RUB" in
  let three := PyMoney.mk (PyDecimal.Finite false 300 (-2)) "RUB" in
  PyMoney.__add__ three ten = PyMoney.__add__ ten three /\
  PyMoney.__add__ ten three
  = Ok (PyMoney.mk (PyDecimal.Finite false 1300 (-2)) "RUB").
Proof.
  intros ten three.
  assert (W10 : PyDecimal.wf (PyMoney.amount ten)) by (vm_compute; discriminate).
  assert (W3 : PyDecimal.wf (PyMoney.amount three)) by (vm_compute; discriminate).
  destruct (Money_add_succeeds ten three W10 W3 eq_refl eq_refl eq_refl)
    as [[(d & Hd & Hm) | (Ho & _)] Hs].
  - split; [exact Hs|]. rewrite Hm. vm_compute in Hd.
    injection Hd as <-. reflexivity.
  - vm_compute in Ho. discriminate.
Defined.

(** X2.  Multiplying a [Money] whose amount is not below zero.  By a
    multiplier that is not below zero: the product is again a [Money],
    carrying the product that [Decimal] computes, unless [Decimal]
    itself raises (Infinity times zero, or an overflow).  By a finite
    multiplier below zero, when the amount is finite and above zero and
    the two exponents add up to Etiny or more: the product is refused,
    as a negative amount or as an overflow. *)
Theorem Money_mul_sign (a : PyMoney.t) (k : PyDecimal.t) :
  PyDecimal.wf (PyMoney.amount a) -> PyDecimal.wf k ->
  PyDecimal.nonneg (PyMoney.amount a) ->
  (PyDecimal.nonneg k ->
   (exists d, PyDecimal.__mul__ (PyMoney.amount a) k = PyDecimal.Done d /\
              PyMoney.__mul__ a k = Ok (PyMoney.mk d (PyMoney.currency a))) \/
   (exists x, PyDecimal.__mul__ (PyMoney.amount a) k = PyDecimal.Trap x /\
              PyMoney.__mul__ a k = Raise DecimalError)) /\
  (forall s ca ea ck ek,
     PyMoney.amount a = PyDecimal.Finite s ca ea ->
     k = PyDecimal.Finite true ck ek ->
     0 < ca -> 0 < ck -> PyDecimal.Etiny <= ea + ek ->
     PyMoney.__mul__ a k = Raise (ValueError "Amount cannot be negative") \/
     PyMoney.__mul__ a k = Raise DecimalError).
Proof.
  intros Wa Wk Na. split.
  - intros Nk. unfold PyMoney.__mul__.
    destruct (PyDecimal.__mul__ (PyMoney.amount a) k) as [d|x] eqn:E;
      [left|right; eauto].
    exists d. split; [reflexivity|].
    assert (Hd : PyDecimal.nonneg d); [|unfold PyMoney.new; rewrite Hd;
                                          reflexivity].
    unfold PyDecimal.nonneg in *.
    destruct (PyMoney.amount a) as [s1 c1 e1|[|]|[|]];
      destruct k as [s2 c2 e2|[|]|[|]];
      try discriminate; cbn [PyDecimal.__mul__ xorb] in E.
    + rewrite PyDecFacts.lt_zero_finite in Na, Nk.
      injection Na as Na. injection Nk as Nk.
      cbn [PyDecimal.wf] in Wa, Wk.
      destruct (Z.eq_dec (c1 * c2) 0) as [Hz|Hz].
      * rewrite Hz in E. unfold PyDecimal._fix in E. cbn [Z.eqb] in E.
        injection E as <-. rewrite PyDecFacts.lt_zero_finite.
        cbn. apply f_equal, andb_false_r.
      * assert (s1 = false) as ->.
        { destruct s1; [|reflexivity].
          destruct (Z.eqb_spec c1 0); [nia|discriminate]. }
        assert (s2 = false) as ->.
        { destruct s2; [|reflexivity].
          destruct (Z.eqb_spec c2 0); [nia|discriminate]. }
        apply PyDecFacts.fix_shape in E as (c' & e' & -> & Hc'); [|nia].
        rewrite PyDecFacts.lt_zero_finite. reflexivity.
    + rewrite PyDecFacts.lt_zero_finite in Na. injection Na as Na.
      destruct (Z.eqb_spec c1 0); [discriminate|].
      destruct s1; [discriminate|]. injection E as <-. reflexivity.
    + rewrite PyDecFacts.lt_zero_finite in Nk. injection Nk as Nk.
      destruct (Z.eqb_spec c2 0); [discriminate|].
      destruct s2; [discriminate|]. injection E as <-. reflexivity.
    + injection E as <-. reflexivity.
  - intros s ca ea ck ek Ha -> Hca Hck He. unfold PyMoney.__mul__.
    rewrite Ha in *. unfold PyDecimal.nonneg in Na.
    rewrite PyDecFacts.lt_zero_finite in Na. injection Na as Na.
    assert (s = false) as ->.
    { destruct s; [|reflexivity].
      destruct (Z.eqb_spec ca 0); [lia|discriminate]. }
    cbn [PyDecimal.__mul__ xorb].
    destruct (PyDecFacts.fix_above_tiny true (ca * ck) (ea + ek)
                ltac:(nia) He) as [(c' & e' & -> & Hc')|[-> _]];
      [left|right; reflexivity].
    unfold PyMoney.new. rewrite PyDecFacts.lt_zero_finite.
    destruct (Z.eqb_spec c' 0); [lia|]. reflexivity.
Qed.

(** X2 at 10.00 RUB, times 2 and times -2. *)
Lemma Money_mul_sign_witness :
  let ten := PyMoney.mk (PyDecimal.Finite false 1000 (-2)) "RUB" in
  PyMoney.__mul__ ten (PyDecimal.Finite false 2 0)
  = Ok (PyMoney.mk (PyDecimal.Finite false 2000 (-2)) "RUB") /\
  is_ok (PyMoney.__mul__ ten (PyDecimal.Finite true 2 0)) = false.
Proof.
  intros ten.
  assert (W10 : PyDecimal.wf (PyMoney.amount ten))
    by (vm_compute; discriminate).
  assert (W2 : forall s, PyDecimal.wf (PyDecimal.Finite s 2 0))
    by (intros s; vm_compute; discriminate).
  split.
  - destruct (proj1 (Money_mul_sign ten (PyDecimal.Finite false 2 0)
                       W10 (W2 false) eq_refl) eq_refl)
      as [(d & Hd & Hm) | (x & Hx & _)].
    + rewrite Hm. vm_compute in Hd. injection Hd as <-. reflexivity.
    + vm_compute in Hx. discriminate.
  - destruct (proj2 (Money_mul_sign ten (PyDecimal.Finite true 2 0)
                       W10 (W2 true) eq_refl)
                false 1000 (-2) 2 0 eq_refl eq_refl
                ltac:(lia) ltac:(lia) ltac:(vm_compute; discriminate))
      as [-> | ->]; reflexivity.
Defined.

Lemma string_eqb_sym (x y : string) : String.eqb x y = String.eqb y x.
Proof.
  destruct (String.eqb_spec x y) as [->|H].
  - symmetry. apply String.eqb_refl.
  - symmetry. apply String.eqb_neq. congruence.
Qed.

(** X3.  The two comparisons of Money mirror each other, [a < b] is
    [b > a] in result and in failure; [<] is irreflexive and
    asymmetric. *)
Theorem Money_order (a b : Money.t) :
  Money.__lt__ a b = Money.__gt__ b a /\
  Money.__lt__ a a = Ok false /\
  (Money.__lt__ a b = Ok true -> Money.__lt__ b a = Ok false).
Proof.
  split; [|split].
  - unfold Money.__lt__, Money.__gt__.
    rewrite (string_eqb_sym (Money.currency a)). reflexivity.
  - unfold Money.__lt__. rewrite String.eqb_refl. cbn [negb].
    unfold Dec.ltb. rewrite Z.ltb_irrefl. reflexivity.
  - unfold Money.__lt__.
    rewrite (string_eqb_sym (Money.currency b)).
    destruct (negb _); [discriminate|].
    intros [= H]. f_equal.
    unfold Dec.ltb in *. rewrite (align_swap a.(Money.amount)). cbn [fst snd].
    apply Z.ltb_lt in H. apply Z.ltb_ge. lia.
Qed.

Lemma Money_order_witness :
  Money.__lt__ (Money.mk (Dec.cents 1000) "RUB") (Money.mk (Dec.cents 300) "RUB")
  = Ok false.
Proof.
  apply (proj2 (proj2 (Money_order (Money.mk (Dec.cents 300) "RUB")
                         (Money.mk (Dec.cents 1000) "RUB")))).
  reflexivity.
Defined.

(** ** TimePeriod *)

(** X4.  [to_days] answers for the units days, months and years and
    raises for every other; it counts a month as 30 days and a year as
    365, so [12 * n] months fall [5 * n] days short of [n] years. *)
Theorem to_days_units (n : Z) (u : string) :
  (is_ok (TimePeriod.to_days (TimePeriod.mk n u)) = true
   <-> u = "days" \/ u = "months" \/ u = "years") /\
  TimePeriod.to_days (TimePeriod.mk n "days") = Ok n /\
  TimePeriod.to_days (TimePeriod.mk (12 * n) "months") = Ok (365 * n - 5 * n) /\
  TimePeriod.to_days (TimePeriod.mk n "years") = Ok (365 * n).
Proof.
  split; [|split; [|split]].
  - unfold TimePeriod.to_days. cbn [TimePeriod.unit TimePeriod.value].
    destruct (String.eqb_spec u "days") as [->|H1]; [cbn; tauto|].
    destruct (String.eqb_spec u "months") as [->|H2]; [cbn; tauto|].
    destruct (String.eqb_spec u "years") as [->|H3]; [cbn; tauto|].
    cbn. split; [discriminate | tauto].
  - reflexivity.
  - unfold TimePeriod.to_days. cbn. f_equal. lia.
  - unfold TimePeriod.to_days. cbn. f_equal. lia.
Qed.

(** ** The real gateway's charge *)

(** X5.  [charge] reports success exactly when the request went
    through, the answer's status is "succeeded" and the answer has an
    id, which it then returns.  A transport failure comes back as
    [(False, "Payment gateway request failed: ...")], and an answer
    marked succeeded that lacks its id as the failure [(False, "'id'")]. *)
Theorem charge_outcome_cases (send : Gateway.transport)
    (gw : Gateway.YooMoneyGateway) (t : datetime) (amount : Money.t)
    (pm customer : string) :
  let req := Gateway.charge_request gw t amount pm customer in
  let out := Gateway.charge send gw t amount pm customer in
  (fst out = true <->
   exists response i, send req = inr response /\
     response !! "status" = Some "succeeded" /\ response !! "id" = Some i /\
     snd out = i) /\
  (forall e, send req = inl e ->
     out = (false, "Payment gateway request failed: " +:+ e)) /\
  (forall response, send req = inr response ->
     response !! "status" = Some "succeeded" -> response !! "id" = None ->
     out = (false, "'id'")).
Proof.
  cbv zeta. unfold Gateway.charge.
  destruct (send _) as [e|response] eqn:Hs.
  - split; [|split].
    + split; [discriminate|]. intros (r & i & [=] & _).
    + intros e' [= <-]. reflexivity.
    + intros r [=].
  - split; [|split].
    + destruct (decide (response !! "status" = Some "succeeded")) as [Hst|Hst].
      * destruct (response !! "id") as [i|] eqn:Hid; cbn.
        -- split; [eauto 10|reflexivity].
        -- split; [discriminate|]. intros (r & i & [= <-] & _ & Hi & _).
           congruence.
      * cbn. split; [discriminate|]. intros (r & i & [= <-] & H & _).
        contradiction.
    + intros e [=].
    + intros r [= <-] Hst Hid. rewrite decide_True by exact Hst.
      rewrite Hid. reflexivity.
Qed.

Lemma charge_outcome_cases_witness :
  Gateway.charge (fun _ => inr {[ "status" := "succeeded" ]})
    (Gateway.__init__ "shop" "secret" false) 0
    (Money.mk (Dec.cents 1000) "RUB") "pm" "u"
  = (false, "'id'").
Proof.
  apply (proj2 (proj2 (charge_outcome_cases
           (fun _ => inr {[ "status" := "succeeded" ]})
           (Gateway.__init__ "shop" "secret" false) 0
           (Money.mk (Dec.cents 1000) "RUB") "pm" "u"))
           {[ "status" := "succeeded" ]} eq_refl); reflexivity.
Defined.

(** X6.  The test flag changes nothing: a gateway in test mode sends
    the very request, to the very URL of the live API, that the same
    gateway sends in live mode, and reports the same outcome. *)
Theorem test_mode_is_live_mode (send : Gateway.transport)
    (shop secret : string) (t : datetime) (amount : Money.t)
    (pm customer : string) :
  Gateway.charge_request (Gateway.__init__ shop secret true) t amount pm customer
  = Gateway.charge_request (Gateway.__init__ shop secret false) t amount pm
      customer /\
  Gateway.url (Gateway.charge_request (Gateway.__init__ shop secret true)
                 t amount pm customer)
  = "https://api.yookassa.ru/v3/payments" /\
  Gateway.charge send (Gateway.__init__ shop secret true) t amount pm customer
  = Gateway.charge send (Gateway.__init__ shop secret false) t amount pm
      customer.
Proof. repeat split. Qed.

(** ** The mock gateway *)

Lemma tx_key_inj (n n' : Z) : Mock.tx_key n = Mock.tx_key n' -> n = n'.
Proof.
  unfold Mock.tx_key. cbn. intros [= H]. exact (pretty_Z_inj _ _ H).
Qed.

Lemma reachable_keys_below (m : Mock.t) : Mock.reachable m -> keys_below m.
Proof.
  induction 1 as [n d | m r pick now amount pm customer Hm IH
                 | m tid amount Hm IH]; intros k tx.
  - cbn. rewrite lookup_empty. discriminate.
  - unfold Mock.charge. destruct (_ <? _); cbn.
    + intros H. destruct (IH _ _ H) as (n & Hn & ->). exists n. split; [lia|done].
    + destruct (decide (Mock.tx_key (Mock._counter m + 1) = k)) as [<-|Hne].
      * intros _. exists (Mock._counter m + 1).
        split; [|reflexivity].
        assert (0 <= Mock._counter m); [|lia].
        clear -Hm. induction Hm; cbn; [lia| |].
        -- unfold Mock.charge. destruct (_ <? _); cbn; lia.
        -- unfold Mock.refund. destruct (_ !! _); cbn; lia.
      * rewrite lookup_insert_ne by exact Hne. intros H.
        destruct (IH _ _ H) as (n & Hn & ->). exists n. split; [lia|done].
  - unfold Mock.refund. destruct (Mock.transactions m !! tid) as [tx0|] eqn:E;
      cbn; [|apply IH].
    destruct (decide (tid = k)) as [<-|Hne].
    + intros _. exact (IH _ _ E).
    + rewrite lookup_insert_ne by exact Hne. apply IH.
Qed.

(** X7.  Whatever charges and refunds a mock gateway has seen, one more
    charge advances the counter by one, success or not, and disturbs no
    earlier transaction: a failed charge stores nothing, a successful
    one stores its transaction as completed under an id that was not in
    use. *)
Theorem mock_charge_fresh (m : Mock.t) (r : Z) (pick : nat) (t : datetime)
    (amount : Money.t) (pm customer : string) :
  Mock.reachable m ->
  let out := Mock.charge r pick t m amount pm customer in
  Mock._counter (snd out) = Mock._counter m + 1 /\
  (forall k tx, Mock.transactions m !! k = Some tx ->
                Mock.transactions (snd out) !! k = Some tx) /\
  (fst (fst out) = false -> Mock.transactions (snd out) = Mock.transactions m) /\
  (fst (fst out) = true ->
   Mock.transactions m !! snd (fst out) = None /\
   Mock.transactions (snd out) !! snd (fst out)
   = Some (Mock.mkTx (Money.amount amount) (Money.currency amount) customer
                     "completed" t)).
Proof.
  intros Hm. pose proof (reachable_keys_below m Hm) as Hk. cbv zeta.
  assert (Hfresh : Mock.transactions m !! Mock.tx_key (Mock._counter m + 1) = None).
  { destruct (Mock.transactions m !! _) as [tx|] eqn:E; [|reflexivity].
    destruct (Hk _ _ E) as (n & Hn & Heq). apply tx_key_inj in Heq. lia. }
  unfold Mock.charge. destruct (_ <? _); cbn.
  - repeat split; try done.
  - split; [reflexivity|]. split; [|split; [discriminate|]].
    + intros k tx H. rewrite lookup_insert_ne; [exact H|].
      intros <-. congruence.
    + intros _. split; [exact Hfresh|]. apply lookup_insert_eq.
Qed.

Lemma mock_charge_fresh_witness :
  Mock._counter (snd (Mock.charge 0 0 0 (Mock.__init__ 95 100)
                        (Money.mk (Dec.cents 1000) "RUB") "pm" "u")) = 0 + 1.
Proof.
  apply (mock_charge_fresh (Mock.__init__ 95 100) 0 0 0
           (Money.mk (Dec.cents 1000) "RUB") "pm" "u" (Mock.reach_init 95 100)).
Defined.

(** X8.  A refund of an unknown transaction fails and changes nothing.
    A refund of a known one succeeds whatever amount is asked, marks the
    transaction refunded and keeps its amount; asked again, for any
    amount, it succeeds again and hands out the same refund id. *)
Theorem mock_refund_repeats (m : Mock.t) (tid : string) (a a' : Money.t) :
  (Mock.transactions m !! tid = None ->
   Mock.refund m tid a = ((false, "Transaction not found"), m)) /\
  (forall tx, Mock.transactions m !! tid = Some tx ->
   let out := Mock.refund m tid a in
   fst (fst out) = true /\
   Mock.transactions (snd out) !! tid
   = Some (Mock.mkTx (Mock.amount tx) (Mock.currency tx) (Mock.customer_id tx)
                     "refunded" (Mock.timestamp tx)) /\
   fst (Mock.refund (snd out) tid a') = fst out).
Proof.
  split.
  - intros H. unfold Mock.refund. rewrite H. reflexivity.
  - intros tx H. cbv zeta.
    assert (E : Mock.refund m tid a
                = ((true, "mock_refund_" +:+ pretty (Mock._counter m)),
                   Mock.mk (Mock.rate_num m) (Mock.rate_den m)
                     (<[tid := Mock.mkTx (Mock.amount tx) (Mock.currency tx)
                                 (Mock.customer_id tx) "refunded"
                                 (Mock.timestamp tx)]> (Mock.transactions m))
                     (Mock._counter m)))
      by (unfold Mock.refund; rewrite H; reflexivity).
    rewrite E. cbn [fst snd Mock.transactions].
    split; [reflexivity|]. split; [apply lookup_insert_eq|].
    unfold Mock.refund. cbn [Mock.transactions Mock._counter].
    rewrite lookup_insert_eq. reflexivity.
Qed.

Lemma mock_refund_repeats_witness :
  Mock.refund (Mock.__init__ 95 100) "mock_tx_1" (Money.mk (Dec.cents 1000) "RUB")
  = ((false, "Transaction not found"), Mock.__init__ 95 100).
Proof.
  apply (proj1 (mock_refund_repeats (Mock.__init__ 95 100) "mock_tx_1"
                  (Money.mk (Dec.cents 1000) "RUB")
                  (Money.mk (Dec.cents 1000) "RUB"))).
  reflexivity.
Defined.

(** X9.  With a success rate of 1 or more no draw of [random()] makes
    a charge fail; and a charge that fails, at any rate, answers with
    one of the four catalogued reasons. *)
Theorem mock_charge_rate (m : Mock.t) (r : Z) (pick : nat) (t : datetime)
    (amount : Money.t) (pm customer : string) :
  let out := Mock.charge r pick t m amount pm customer in
  (0 <= r < 2 ^ 53 -> 0 < Mock.rate_den m -> Mock.rate_den m <= Mock.rate_num m ->
   fst out = (true, Mock.tx_key (Mock._counter m + 1))) /\
  (fst (fst out) = false -> In (snd (fst out)) Mock.error_reasons).
Proof.
  cbv zeta. unfold Mock.charge. split.
  - intros Hr Hd Hn.
    destruct (Z.ltb_spec (Mock.rate_num m * 2 ^ 53) (r * Mock.rate_den m));
      [|reflexivity].
    exfalso. assert (0 < 2 ^ 53) by reflexivity. nia.
  - destruct (_ <? _); cbn [fst snd]; [|discriminate]. intros _.
    apply nth_In. change (length Mock.error_reasons) with 4%nat.
    apply Nat.mod_upper_bound. discriminate.
Qed.

Lemma mock_charge_rate_witness :
  fst (Mock.charge (2 ^ 53 - 1) 0 0 (Mock.__init__ 1 1)
         (Money.mk (Dec.cents 1000) "RUB") "pm" "u")
  = (true, "mock_tx_1").
Proof.
  apply (proj1 (mock_charge_rate (Mock.__init__ 1 1) (2 ^ 53 - 1) 0 0
                  (Money.mk (Dec.cents 1000) "RUB") "pm" "u"));
    cbn; lia.
Defined.

(** ** More on the scheduler *)

(** Today's or tomorrow's [hour:minute], whichever comes first from
    [now] on. *)
Lemma calculate_next_run_bounds (t hour minute : Z) :
  0 <= hour < 24 -> 0 <= minute < 60 ->
  exists r, Scheduler._calculate_next_run t hour minute = Ok r /\
    t <= r < t + days 1 /\ r mod days 1 = hours hour + minutes minute.
Proof.
  intros Hh Hm. unfold Scheduler._calculate_next_run.
  replace ((0 <=? hour) && (hour <? 24) && (0 <=? minute) && (minute <? 60))
    with true by (symmetry; rewrite !andb_true_iff; lia).
  unfold td_days, days, hours, minutes in *.
  pose proof (Z.div_mod t 86400000000 ltac:(lia)) as Hdm.
  pose proof (Z.mod_pos_bound t 86400000000 ltac:(lia)) as Hmod.
  set (q := t / 86400000000) in *.
  set (c := hour * 3600000000 + minute * 60000000).
  assert (Hc : 0 <= c < 86400000000) by (unfold c; lia).
  assert (Hmodc : forall k, (k * 86400000000 + c) mod (1 * 86400000000) = c).
  { intros k. rewrite Z.mul_1_l, Z.add_comm, Z_mod_plus_full.
    apply Z.mod_small. exact Hc. }
  replace (q * 86400000000 + hour * 3600000000 + minute * 60000000)
    with (q * 86400000000 + c) by (unfold c; lia).
  destruct (Z.ltb_spec (q * 86400000000 + c) t).
  - eexists. split; [reflexivity|]. split; [lia|].
    replace (q * 86400000000 + c + 1 * 86400000000)
      with ((q + 1) * 86400000000 + c) by lia.
    rewrite Hmodc. unfold c. lia.
  - eexists. split; [reflexivity|]. split; [lia|].
    rewrite Hmodc. unfold c. lia.
Qed.

(** X10.  For an hour in 0..23 and a minute in 0..59,
    [_calculate_next_run] answers the first moment at or after [now]
    whose time of day is [hour:minute]: it is never in the past and
    less than a day ahead.  Outside those ranges it raises. *)
Theorem next_daily_run_window (t hour minute : Z) :
  (0 <= hour < 24 -> 0 <= minute < 60 ->
   exists r, Scheduler._calculate_next_run t hour minute = Ok r /\
     t <= r < t + days 1 /\ r mod days 1 = hours hour + minutes minute) /\
  (~ (0 <= hour < 24 /\ 0 <= minute < 60) ->
   is_ok (Scheduler._calculate_next_run t hour minute) = false).
Proof.
  split; [apply calculate_next_run_bounds|].
  intros H. unfold Scheduler._calculate_next_run.
  destruct ((0 <=? hour) && (hour <? 24) && (0 <=? minute) && (minute <? 60))
    eqn:E; [|reflexivity].
  rewrite !andb_true_iff in E. exfalso. apply H. lia.
Qed.

Lemma next_daily_run_window_witness :
  exists r, Scheduler._calculate_next_run (days 100 + hours 3) 2 0 = Ok r /\
    days 100 + hours 3 <= r < days 100 + hours 3 + days 1 /\
    r mod days 1 = hours 2 + minutes 0.
Proof.
  apply (proj1 (next_daily_run_window (days 100 + hours 3) 2 0)); lia.
Defined.

(** X11.  Cancelling an unknown task answers [False] and changes
    nothing.  Cancelling a known one answers [True], leaves the job
    with the library and every other task as they were, and from then
    on a tick of the task is skipped: [_wrap_task] changes nothing,
    whether the run would have completed or not.  Cancelling again
    answers [True] and changes nothing more. *)
Theorem cancel_task_skips (s : Scheduler.TaskScheduler) (task_id : string) :
  (Scheduler.tasks s !! task_id = None ->
   Scheduler.cancel_task task_id s = (false, s)) /\
  (is_Some (Scheduler.tasks s !! task_id) ->
   let s' := snd (Scheduler.cancel_task task_id s) in
   fst (Scheduler.cancel_task task_id s) = true /\
   Scheduler.jobs s' = Scheduler.jobs s /\
   (forall other, other <> task_id ->
      Scheduler.tasks s' !! other = Scheduler.tasks s !! other) /\
   (forall completed t_done t_calc,
      Scheduler._wrap_task task_id completed t_done t_calc s' = s') /\
   Scheduler.cancel_task task_id s' = (true, s')).
Proof.
  split.
  - intros H. unfold Scheduler.cancel_task. rewrite H. reflexivity.
  - intros [t Ht]. cbv zeta.
    assert (E : Scheduler.cancel_task task_id s
                = (true,
                   Scheduler.mkSched (Scheduler.jobs s)
                     (<[task_id := Scheduler.mkTask (Scheduler.id t)
                                     (Scheduler.schedule_type t)
                                     (Scheduler.params t) (Scheduler.last_run t)
                                     (Scheduler.next_run t) false]>
                        (Scheduler.tasks s))))
      by (unfold Scheduler.cancel_task; rewrite Ht; reflexivity).
    rewrite E. cbn [fst snd Scheduler.jobs Scheduler.tasks].
    split; [reflexivity|]. split; [reflexivity|]. split; [|split].
    + intros other Hne. apply lookup_insert_ne. congruence.
    + intros completed t_done t_calc.
      unfold Scheduler._wrap_task, Scheduler._should_run_task.
      cbn [Scheduler.tasks]. rewrite lookup_insert_eq. reflexivity.
    + unfold Scheduler.cancel_task.
      cbn [Scheduler.tasks Scheduler.jobs].
      rewrite lookup_insert_eq, insert_insert_eq. reflexivity.
Qed.

Lemma cancel_task_skips_witness :
  let s := Scheduler.schedule_recurring_task "job" 0 (minutes 5)
             Scheduler.__init__ in
  Scheduler._wrap_task "job" true (minutes 5) (minutes 5)
    (snd (Scheduler.cancel_task "job" s))
  = snd (Scheduler.cancel_task "job" s).
Proof.
  cbv zeta.
  apply (proj2 (cancel_task_skips
                  (Scheduler.schedule_recurring_task "job" 0 (minutes 5)
                     Scheduler.__init__) "job")).
  vm_compute. eauto.
Defined.

(** X12.  A tick of one task touches nothing but the two dates of that
    task: the jobs, every other task, and the task's own type,
    parameters and active flag stay; and a run that raised or timed out
    leaves even the dates, [last_run] included, as they were. *)
Theorem wrap_task_frame (s : Scheduler.TaskScheduler) (task_id : string)
    (completed : bool) (t_done t_calc : datetime) :
  let s' := Scheduler._wrap_task task_id completed t_done t_calc s in
  Scheduler.jobs s' = Scheduler.jobs s /\
  (forall other, other <> task_id ->
     Scheduler.tasks s' !! other = Scheduler.tasks s !! other) /\
  (Scheduler.schedule_type <$> Scheduler.tasks s' !! task_id)
  = (Scheduler.schedule_type <$> Scheduler.tasks s !! task_id) /\
  (Scheduler.params <$> Scheduler.tasks s' !! task_id)
  = (Scheduler.params <$> Scheduler.tasks s !! task_id) /\
  (Scheduler.is_active <$> Scheduler.tasks s' !! task_id)
  = (Scheduler.is_active <$> Scheduler.tasks s !! task_id) /\
  (completed = false -> s' = s).
Proof.
  cbv zeta. unfold Scheduler._wrap_task, Scheduler._should_run_task.
  destruct (Scheduler.tasks s !! task_id) as [t|] eqn:Ht; cbn [negb];
    [|rewrite ?Ht; repeat split; reflexivity].
  destruct (Scheduler.is_active t) eqn:Hact; cbn [negb];
    [|rewrite ?Ht; repeat split; reflexivity].
  destruct completed; cbn [negb]; [|rewrite ?Ht; repeat split; reflexivity].
  destruct (Scheduler._calculate_next_task_run _ _) as [nr|e];
    cbn [Scheduler.jobs Scheduler.tasks];
    rewrite lookup_insert_eq; cbn;
    (split; [reflexivity|]);
    (split; [|rewrite ?Hact; repeat split; discriminate]);
    intros other Hne; apply lookup_insert_ne; congruence.
Qed.

Lemma wrap_task_frame_witness :
  Scheduler._wrap_task "job" false (minutes 5) (minutes 5)
    (Scheduler.schedule_recurring_task "job" 0 (minutes 5) Scheduler.__init__)
  = Scheduler.schedule_recurring_task "job" 0 (minutes 5) Scheduler.__init__.
Proof.
  apply (wrap_task_frame
           (Scheduler.schedule_recurring_task "job" 0 (minutes 5)
              Scheduler.__init__) "job" false (minutes 5) (minutes 5)).
  reflexivity.
Defined.

(** X13.  A recurring task of interval [d], more than nothing and under
    [2 ^ 53] microseconds (where the float [total_seconds()] still
    tells two microseconds apart).  The job handed to the library runs
    every [d] in seconds when [d] is under a minute; every
    [floor(d / 1 min)] minutes from a minute to an hour; every
    [floor(d / 1 h)] hours from an hour to a day; every
    [floor(d / 1 day)] days from a day on: a whole number of units, at
    least one, rounded down.  The task stored under the id keeps the
    interval as given and expects its next run at [now + d]. *)
Theorem recurring_job_period (task_id : string) (t0 : datetime) (d : timedelta)
    (s : Scheduler.TaskScheduler) :
  0 < d < 2 ^ 53 ->
  exists n u,
    Scheduler.jobs (Scheduler.schedule_recurring_task task_id t0 d s)
    = Scheduler.jobs s ++ [Scheduler.mkJob n u task_id] /\
    Scheduler.tasks (Scheduler.schedule_recurring_task task_id t0 d s)
      !! task_id
    = Some (Scheduler.mkTask task_id u (Scheduler.Interval d) None
                             (Some (t0 + d)) true) /\
    (d < seconds 60 -> u = "seconds" /\ n = d) /\
    (seconds 60 <= d < seconds 3600 ->
     u = "minutes" /\
     exists m, 1 <= m < 60 /\ n = m * 1000000 /\
               minutes m <= d < minutes (m + 1)) /\
    (seconds 3600 <= d < seconds 86400 ->
     u = "hours" /\
     exists h, 1 <= h < 24 /\ n = h * 1000000 /\
               hours h <= d < hours (h + 1)) /\
    (seconds 86400 <= d ->
     u = "days" /\
     exists k, 1 <= k /\ n = k * 1000000 /\ days k <= d < days (k + 1)).
Proof.
  intros [Hd _]. unfold Scheduler.schedule_recurring_task.
  assert (Hb : forall u, 0 < u -> d / u * u <= d < d / u * u + u).
  { intros u Hu. pose proof (Z.div_mod d u ltac:(lia)).
    pose proof (Z.mod_pos_bound d u Hu). lia. }
  assert (Hge : forall u, 0 < u -> u <= d -> 1 <= d / u).
  { intros u Hu Hle. apply Z.div_le_lower_bound; lia. }
  assert (Hlt : forall u k, 0 < u -> d < k * u -> d / u < k).
  { intros u k Hu Hk. apply Z.div_lt_upper_bound; lia. }
  unfold seconds, minutes, hours, days.
  destruct (Z.ltb_spec d (60 * 1000000)) as [H1|H1];
    [|destruct (Z.ltb_spec d (3600 * 1000000)) as [H2|H2];
      [|destruct (Z.ltb_spec d (86400 * 1000000)) as [H3|H3]]];
    eexists _, _; (split; [reflexivity|]);
    (split; [cbn [Scheduler.tasks]; apply lookup_insert_eq|]);
    (split; [intros ?|split; [intros ?|split; [intros ?|intros ?]]]);
    try lia.
  - split; reflexivity.
  - split; [reflexivity|]. exists (d / 60000000).
    change (60 * 1000000) with 60000000.
    pose proof (Hb 60000000 ltac:(lia)).
    pose proof (Hge 60000000 ltac:(lia) ltac:(lia)).
    pose proof (Hlt 60000000 60 ltac:(lia) ltac:(lia)). lia.
  - split; [reflexivity|]. exists (d / 3600000000).
    change (3600 * 1000000) with 3600000000.
    pose proof (Hb 3600000000 ltac:(lia)).
    pose proof (Hge 3600000000 ltac:(lia) ltac:(lia)).
    pose proof (Hlt 3600000000 24 ltac:(lia) ltac:(lia)). lia.
  - split; [reflexivity|]. exists (d / 86400000000).
    change (86400 * 1000000) with 86400000000.
    pose proof (Hb 86400000000 ltac:(lia)).
    pose proof (Hge 86400000000 ltac:(lia) ltac:(lia)). lia.
Qed.

(** X13 at 119 seconds: one minute. *)
Lemma recurring_job_period_witness :
  Scheduler.jobs (Scheduler.schedule_recurring_task "job" 0 (seconds 119)
                    Scheduler.__init__)
  = [Scheduler.mkJob 1000000 "minutes" "job"].
Proof.
  destruct (recurring_job_period "job" 0 (seconds 119) Scheduler.__init__)
    as (n & u & Hj & _ & _ & Hm & _).
  { unfold seconds. lia. }
  destruct Hm as (-> & m & Hm1 & -> & Hm2); [unfold seconds; lia|].
  rewrite Hj. unfold minutes, seconds in Hm2.
  replace m with 1 by lia. reflexivity.
Defined.

(** X14.  After a completed run of an active daily task with an hour in
    0..23 and a minute in 0..59, [last_run] is the time the run ended
    and [next_run] is taken from the wall clock: the first
    [hour:minute] at or after the clock reading, less than a day
    ahead. *)
Theorem daily_task_after_run (s : Scheduler.TaskScheduler) (task_id : string)
    (task : Scheduler.ScheduledTask) (hour minute : Z)
    (t_done t_calc : datetime) :
  Scheduler.tasks s !! task_id = Some task ->
  Scheduler.is_active task = true ->
  Scheduler.schedule_type task = "daily" ->
  Scheduler.params task = Scheduler.DailyAt hour minute ->
  0 <= hour < 24 -> 0 <= minute < 60 ->
  exists r,
    Scheduler.tasks (Scheduler._wrap_task task_id true t_done t_calc s) !! task_id
    = Some (Scheduler.mkTask (Scheduler.id task) "daily"
              (Scheduler.DailyAt hour minute) (Some t_done) (Some r) true) /\
    t_calc <= r < t_calc + days 1 /\
    r mod days 1 = hours hour + minutes minute.
Proof.
  intros Ht Hact Hty Hpar Hh Hm.
  destruct (calculate_next_run_bounds t_calc hour minute Hh Hm)
    as (r & Hr & Hb & Hmod).
  exists r. split; [|split; assumption].
  unfold Scheduler._wrap_task, Scheduler._should_run_task.
  rewrite Ht, Hact. cbn [negb].
  unfold Scheduler._calculate_next_task_run.
  cbn [Scheduler.schedule_type Scheduler.params Scheduler.last_run].
  rewrite Hty, Hpar. cbn [String.eqb Ascii.eqb Bool.eqb]. rewrite Hr.
  cbn [Scheduler.tasks Scheduler.id Scheduler.schedule_type Scheduler.params
       Scheduler.last_run Scheduler.is_active].
  rewrite lookup_insert_eq, ?Hty, ?Hpar, ?Hact. reflexivity.
Qed.

Lemma daily_task_after_run_witness :
  exists r,
    Scheduler.tasks
      (Scheduler._wrap_task "billing" true (days 100 + hours 2) (days 100 + hours 2)
         (Scheduler.mkSched []
            {[ "billing" := Scheduler.mkTask "billing" "daily"
                              (Scheduler.DailyAt 2 0) None None true ]}))
      !! "billing"
    = Some (Scheduler.mkTask "billing" "daily" (Scheduler.DailyAt 2 0)
              (Some (days 100 + hours 2)) (Some r) true) /\
    days 100 + hours 2 <= r < days 100 + hours 2 + days 1 /\
    r mod days 1 = hours 2 + minutes 0.
Proof.
  apply (daily_task_after_run
           (Scheduler.mkSched []
              {[ "billing" := Scheduler.mkTask "billing" "daily"
                                (Scheduler.DailyAt 2 0) None None true ]})
           "billing"
           (Scheduler.mkTask "billing" "daily" (Scheduler.DailyAt 2 0)
              None None true) 2 0);
    try reflexivity; lia.
Defined.

(** ** More on the lifecycle manager *)


(** X15.  A promo code changes nothing: whatever code is given,
    [create_subscription] charges, stores and returns exactly what it
    does without one. *)
Theorem promo_code_has_no_effect
    (h : UUID -> World -> option Subscription) (u p : UUID) (pm : string)
    (promo : option string) (w : World) :
  Lifecycle.create_subscription h u p pm promo w
  = Lifecycle.create_subscription h u p pm None w.
Proof. destruct promo as [[|c code]|]; reflexivity. Qed.










(** X20.  When the charge of the prorated amount is refused,
    [upgrade_subscription] raises the payment's error and the
    subscription keeps its plan: nothing of it is changed and nobody is
    notified. *)
Theorem upgrade_refused_keeps_plan (w : World) (sid npid : UUID)
    (sub : Subscription) (current new : SubscriptionPlan) (due : Decimal) :
  subscriptions w !! sid = Some sub ->
  plans w !! sub_plan_id sub = Some current ->
  plans w !! npid = Some new ->
  plan_is_active new = true ->
  Dec.leb (price new) (price current) = false ->
  Lifecycle.prorate (now w) (current_period_start sub) (current_period_end sub)
    (price current) (price new) = Some due ->
  Dec.ltb Dec.zero due = true ->
  charge_outcome w (user_id sub) due (payment_method_id sub) <> Succeeded ->
  let out := Lifecycle.upgrade_subscription sid npid w in
  is_ok (fst out) = false /\
  subscriptions (snd out) = subscriptions w /\
  events (snd out)
  = events w ++ [Charge (user_id sub) due (payment_method_id sub)
                        ("Upgrade from " +:+ name current +:+ " to "
                         +:+ name new)].
Proof.
  intros Hs Hcur Hnew Hact Hle Hdue Hpos Hout. cbv zeta.
  unfold Lifecycle.upgrade_subscription, Lifecycle._get_subscription, get_plan,
    Lifecycle._validate_upgrade, Lifecycle._calculate_prorated_amount,
    process_payment.
  run. rewrite Hs. cbn. rewrite Hcur. cbn. rewrite Hnew. cbn.
  rewrite Hact. cbn. rewrite Hle. cbn. rewrite Hdue. cbn. rewrite Hpos. cbn.
  destruct (charge_outcome w _ _ _); [contradiction| |]; cbn;
    repeat split; reflexivity.
Qed.

Lemma upgrade_refused_keeps_plan_witness :
  subscriptions
    (snd (Lifecycle.upgrade_subscription 5%N 2%N
            (world_with (Some on_basic) InsufficientFunds)))
  = subscriptions (world_with (Some on_basic) InsufficientFunds).
Proof.
  apply (upgrade_refused_keeps_plan
           (world_with (Some on_basic) InsufficientFunds) 5%N 2%N on_basic
           basic pro (Dec.mk 1666666666666666666666666667 (-24)));
    try reflexivity; try discriminate.
Defined.

(** ** More on the billing engine *)

(** X21.  No exception leaves [_process_subscription_payment]: in every
    world and for every subscription it returns a result, and the
    result names that subscription. *)
Theorem process_payment_never_raises (sub : Subscription) (w : World) :
  exists r, fst (Billing._process_subscription_payment sub w) = Ok r /\
            Billing.subscription_id r = sub_id sub.
Proof.
  unfold Billing._process_subscription_payment. cbn [Billing._acquire_lock negb].
  destruct (Billing.charge_and_extend sub w) as [[r|e] w1] eqn:E.
  - exists r. split; [reflexivity|].
    revert E. unfold Billing.charge_and_extend, process_payment,
      Billing._extend_subscription. run.
    destruct (plans w !! sub_plan_id sub); cbn; [|discriminate].
    destruct (charge_outcome w _ _ _); cbn; try discriminate.
    destruct (subscriptions w !! sub_id sub); cbn; [|discriminate].
    intros [= <- _]. reflexivity.
  - destruct e;
      try (eexists; split; [reflexivity|reflexivity]).
    destruct (Billing._handle_insufficient_funds sub w1) as [[r|e] w2] eqn:E2;
      [|eexists; split; reflexivity].
    exists r. split; [reflexivity|].
    revert E2. unfold Billing._handle_insufficient_funds,
      Billing._cancel_subscription_for_non_payment, Billing._schedule_retry,
      Billing._send_payment_failed_notification. run.
    destruct (plans w1 !! sub_plan_id sub); cbn; [|discriminate].
    destruct (_ <=? _); cbn; intros [= <- _]; reflexivity.
Qed.

(** X22.  A charge refused for lack of funds, on a subscription whose
    count of failures is below its plan's [max_retries]: the stored
    count goes up by one and stays within [max_retries]; when it reaches
    [max_retries] the subscription is cancelled and no retry is
    scheduled; before that the status is kept and one retry is
    scheduled, [2 ^ retry_count] days after now for a count that was
    [retry_count >= 0], so each failure doubles the wait.  The retry
    date has to be a [datetime]: the clock is one, and where a retry is
    due, [now + 2 ^ retry_count] days is not beyond [datetime.max]
    (beyond it the addition raises, after the count was stored). *)
Theorem insufficient_funds_bounded (w : World) (sub : Subscription)
    (plan : SubscriptionPlan) :
  plans w !! sub_plan_id sub = Some plan ->
  0 <= retry_count sub < max_retries plan ->
  datetime_min <= now w <= datetime_max ->
  (retry_count sub + 1 < max_retries plan ->
   now w + days (2 ^ retry_count sub) <= datetime_max) ->
  let out := Billing._handle_insufficient_funds sub w in
  exists stored,
    subscriptions (snd out) !! sub_id sub = Some stored /\
    retry_count stored = retry_count sub + 1 /\
    retry_count stored <= max_retries plan /\
    if retry_count sub + 1 =? max_retries plan then
      status stored = "cancelled" /\ events (snd out) = events w
    else
      status stored = status sub /\
      events (snd out)
      = events w ++ [RetryScheduled (sub_id sub)
                       (now w + days (2 ^ retry_count sub));
                     Notification (user_id sub) "payment_failed"] /\
      now w < now w + days (2 ^ retry_count sub).
Proof.
  intros Hp Hrc _ _. cbv zeta.
  rewrite (handle_insufficient_funds_step w sub plan Hp).
  destruct (Z.eqb_spec (retry_count sub + 1) (max_retries plan)) as [E|E].
  - replace (max_retries plan <=? retry_count sub + 1) with true
      by (symmetry; apply Z.leb_le; lia).
    cbn. rewrite lookup_insert_eq. eexists. split; [reflexivity|].
    cbn. repeat split; try reflexivity; lia.
  - replace (max_retries plan <=? retry_count sub + 1) with false
      by (symmetry; apply Z.leb_gt; lia).
    cbn. rewrite lookup_insert_eq. eexists. split; [reflexivity|].
    cbn. unfold Billing.backoff.
    replace (0 <=? retry_count sub) with true by (symmetry; apply Z.leb_le; lia).
    rewrite Z.mul_1_l.
    assert (0 < 2 ^ retry_count sub) by (apply Z.pow_pos_nonneg; lia).
    repeat split; try reflexivity; unfold days; lia.
Qed.

Lemma insufficient_funds_bounded_witness :
  exists stored,
    subscriptions (snd (Billing._handle_insufficient_funds late w_late)) !! 5%N
    = Some stored /\
    retry_count stored = 5 + 1 /\ retry_count stored <= 7.
Proof.
  destruct (insufficient_funds_bounded w_late late pro eq_refl
              ltac:(simpl; lia) ltac:(vm_compute; split; discriminate)
              ltac:(intros _; vm_compute; discriminate))
    as (stored & H1 & H2 & H3 & _).
  exists stored. split; [exact H1|]. split; [exact H2 | exact H3].
Defined.



(** ** The routes *)

(** X24.  Without a transaction id the invoice route never produces an
    invoice: the lookup of the last transaction finds none, and the 404
    raised for it inside the [try] is caught there and sent as a 400.
    The billing service is not called and nothing changes. *)
Theorem invoice_without_transaction_is_400
    (generate_invoice : string -> M (list Byte.byte))
    (str_uuid : UUID -> string) (b64encode : list Byte.byte -> string)
    (str_date : datetime -> string) (str_http : Z -> string -> string)
    (sid : UUID) (w : World) :
  Routes.get_invoice generate_invoice str_uuid b64encode str_date str_http
    sid None w
  = (Routes.HTTPException 400
       (str_http 404 "No transactions found for subscription"), w).
Proof. reflexivity. Qed.


